(** * Verification of the bootstrap installer of ersilia

    Shallow embedding of [ersilia/utils/installers.py]: the completion
    ledger ([read_log], [write_log], [update_log], [remove_log]), the
    idempotency gate [_is_done], the development-path detection
    [_package_path], the two resolvers of the configuration file ([_config]
    and [config]) and the steps [conda], [git] and [rdkit]; then the
    construction [__init__], [_credentials], [_clone_repo], the steps
    [base_conda] and [server_docker] and the entry points [base_installer]
    and [check_dependencies], over collaborators left open; and
    [RunTracker.check_types] of [ersilia/core/tracking.py].

    Python objects are modelled as records, the machine the program runs on
    (file system, executable search path, importability of the toolkit) as a
    [Machine], and every method as a function in a state-and-exception monad
    over the pair of the [Installer] object and the world: a raised exception
    keeps the mutations made before it, as in Python. *)

From stdpp Require Import base option list gmap strings sorting.
From Stdlib Require Import Ascii.

(** ** Strings as Python uses them *)

Module Py.

Definition LF : ascii := "010"%char.
Definition CR : ascii := "013"%char.
Definition SLASH : ascii := "/"%char.

(** [str.isspace] on the code points below 256. *)
Definition isspace (c : ascii) : bool :=
  match N_of_ascii c with
  | 9 | 10 | 11 | 12 | 13 | 28 | 29 | 30 | 31 | 32 | 133 | 160 => true
  | _ => false
  end%N.

(** [str.rstrip()] with no argument: drops the trailing whitespace. *)
Fixpoint rstrip (s : string) : string :=
  match s with
  | EmptyString => EmptyString
  | String c r =>
      match rstrip r with
      | EmptyString => if isspace c then EmptyString else String c EmptyString
      | r' => String c r'
      end
  end.

(** Iteration over a text file opened with the default [newline=None]:
    the file is cut after every line terminator, the terminators "\n",
    "\r" and "\r\n" are all delivered as "\n", and a last line without
    terminator is delivered as it is. *)
Fixpoint file_lines (s : string) : list string :=
  match s with
  | EmptyString => []
  | String c r =>
      if Ascii.eqb c LF then String LF EmptyString :: file_lines r
      else if Ascii.eqb c CR then
        match r with
        | String c' r' =>
            if Ascii.eqb c' LF then String LF EmptyString :: file_lines r'
            else String LF EmptyString :: file_lines r
        | EmptyString => [String LF EmptyString]
        end
      else
        match file_lines r with
        | [] => [String c EmptyString]
        | l :: ls => String c l :: ls
        end
  end.

(** What the loop [for l in xs: f.write(l+"\n")] leaves in the file. *)
Fixpoint write_lines (xs : list string) : string :=
  match xs with
  | [] => EmptyString
  | l :: xs' => (l +:+ String LF EmptyString) +:+ write_lines xs'
  end.

(** [sorted] on strings: ascending by code point. *)
Definition sorted (xs : list string) : list string :=
  merge_sort String.le xs.

End Py.

(** ** os.path *)

Module OsPath.

Definition starts_with_slash (s : string) : bool :=
  match s with
  | String c _ => Ascii.eqb c Py.SLASH
  | EmptyString => false
  end.

Fixpoint ends_with_slash (s : string) : bool :=
  match s with
  | EmptyString => false
  | String c EmptyString => Ascii.eqb c Py.SLASH
  | String _ r => ends_with_slash r
  end.

(** [posixpath.join] of two components. *)
Definition join (a b : string) : string :=
  if starts_with_slash b then b
  else if (String.eqb a EmptyString || ends_with_slash a)%bool then a +:+ b
  else a +:+ "/" +:+ b.

(** [p[:i], p[i:]] for [i = p.rfind('/') + 1]; [None] when [p] has no
    slash. *)
Fixpoint cut_last_slash (p : string) : option (string * string) :=
  match p with
  | EmptyString => None
  | String c r =>
      match cut_last_slash r with
      | Some (h, t) => Some (String c h, t)
      | None => if Ascii.eqb c Py.SLASH then Some (String c EmptyString, r)
                else None
      end
  end.

Fixpoint all_slashes (s : string) : bool :=
  match s with
  | EmptyString => true
  | String c r => (Ascii.eqb c Py.SLASH && all_slashes r)%bool
  end.

(** [s.rstrip('/')] *)
Fixpoint rstrip_slash (s : string) : string :=
  match s with
  | EmptyString => EmptyString
  | String c r =>
      match rstrip_slash r with
      | EmptyString =>
          if Ascii.eqb c Py.SLASH then EmptyString else String c EmptyString
      | r' => String c r'
      end
  end.

(** [posixpath.split] *)
Definition split (p : string) : string * string :=
  match cut_last_slash p with
  | None => (EmptyString, p)
  | Some (head, tail) =>
      if (negb (String.eqb head EmptyString) && negb (all_slashes head))%bool
      then (rstrip_slash head, tail)
      else (head, tail)
  end.

Definition dirname (p : string) : string := fst (split p).

End OsPath.

(** ** The machine the installer runs on *)

(** Python exceptions that the embedded code can meet. *)
Inductive exn :=
| FileNotFoundError
| IsADirectoryError
| PermissionError
| FileExistsError
| SameFileError
| TooManyLinks                      (* OSError, ELOOP *)
| ModuleNotFoundError
| ImportError
| OtherError (name : string).

Inductive result (A : Type) :=
| Ok (a : A)
| Raise (e : exn).
Arguments Ok {A} a.
Arguments Raise {A} e.

(** An entry of the file system. [File perm content]: a regular file, [perm]
    telling whether this process may open it. Paths are keys as the program
    writes them; the directories above an entry are not tracked, and the
    target of a link is the key of another entry. *)
Inductive node :=
| File (perm : bool) (content : string)
| Dir
| Symlink (target : string).

Module Fs.

Inductive located :=
| Found (p : string) (n : node)   (* the entry reached, not a link *)
| Missing (p : string)            (* the chain of links ends at no entry *)
| Loop.                           (* more links than the kernel follows *)

Fixpoint resolve (fuel : nat) (fs : gmap string node) (p : string) : located :=
  match fs !! p with
  | None => Missing p
  | Some (Symlink t) =>
      match fuel with
      | O => Loop
      | S fuel' => resolve fuel' fs t
      end
  | Some n => Found p n
  end.

Definition MAXSYMLINKS : nat := 40.

Definition locate (fs : gmap string node) (p : string) : located :=
  resolve MAXSYMLINKS fs p.

(** [os.path.exists]: [os.stat] succeeds (links are followed, a failure
    of any kind answers False). *)
Definition exists_ (fs : gmap string node) (p : string) : bool :=
  match locate fs p with
  | Found _ _ => true
  | _ => false
  end.

Definition isdir (fs : gmap string node) (p : string) : bool :=
  match locate fs p with
  | Found _ Dir => true
  | _ => false
  end.

(** [open(p, "r")] followed by reading the whole file. *)
Definition read (fs : gmap string node) (p : string) : result string :=
  match locate fs p with
  | Found _ (File true c) => Ok c
  | Found _ (File false _) => Raise PermissionError
  | Found _ Dir => Raise IsADirectoryError
  | Found _ (Symlink _) => Raise TooManyLinks
  | Missing _ => Raise FileNotFoundError
  | Loop => Raise TooManyLinks
  end.

(** [open(p, "w")], writing [content], and closing: the file is created
    or truncated at the end of the chain of links. *)
Definition write (fs : gmap string node) (p content : string)
  : result (gmap string node) :=
  match locate fs p with
  | Found q (File true _) => Ok (<[q := File true content]> fs)
  | Found _ (File false _) => Raise PermissionError
  | Found _ Dir => Raise IsADirectoryError
  | Found _ (Symlink _) => Raise TooManyLinks
  | Missing q => Ok (<[q := File true content]> fs)
  | Loop => Raise TooManyLinks
  end.

(** [os.symlink(src, dst)]: the link is not followed, an entry of any
    kind at [dst] is an error. *)
Definition symlink (fs : gmap string node) (src dst : string)
  : result (gmap string node) :=
  match fs !! dst with
  | Some _ => Raise FileExistsError
  | None => Ok (<[dst := Symlink src]> fs)
  end.

(** [os.remove(p)] *)
Definition remove (fs : gmap string node) (p : string)
  : result (gmap string node) :=
  match fs !! p with
  | None => Raise FileNotFoundError
  | Some Dir => Raise IsADirectoryError
  | Some _ => Ok (delete p fs)
  end.

(** [os.makedirs(p, exist_ok=True)] *)
Definition makedirs (fs : gmap string node) (p : string)
  : result (gmap string node) :=
  match fs !! p with
  | None => Ok (<[p := Dir]> fs)
  | Some _ => if isdir fs p then Ok fs else Raise FileExistsError
  end.

(** [os.path.samefile] inside [shutil._samefile]: False when a [stat]
    fails. *)
Definition samefile (fs : gmap string node) (a b : string) : bool :=
  match locate fs a, locate fs b with
  | Found p _, Found q _ => bool_decide (p = q)
  | _, _ => false
  end.

(** [shutil.copyfile(src, dst)] *)
Definition copyfile (fs : gmap string node) (src dst : string)
  : result (gmap string node) :=
  if samefile fs src dst then Raise SameFileError
  else match read fs src with
       | Raise e => Raise e
       | Ok c => write fs dst c
       end.

End Fs.

(** Outcome of the statement [import rdkit]. *)
Inductive import_outcome :=
| Imported
| ImportRaises (e : exn).

Record Machine := {
  fs : gmap string node;
  path_tools : gmap string string;     (* what [shutil.which] answers *)
  rdkit_module : import_outcome;
}.

(** What the program asks of, or does to, what lies outside it. *)
Inductive event :=
| Exists_ (path : string)                      (* os.path.exists *)
| Which (name : string)                        (* shutil.which *)
| Import (module : string)                     (* import statement *)
| RunCommand (cmd : string)                    (* run_command *)
| DownloadSingle (org repo file dst : string). (* GitHubDownloader *)

Record World := {
  machine : Machine;
  calls : list event;                  (* oldest first *)
}.

(** The attributes of an [Installer] that the embedded methods use. *)
Record Installer := {
  development_path : option string;
  check_install_log : bool;
  log_file : string;
  log : option (gset string);          (* None, or the set of task names *)
  cfg_HUB_ORG : string;                (* self.cfg.HUB.ORG *)
  cfg_HUB_PACKAGE : string;            (* self.cfg.HUB.PACKAGE *)
}.

Definition State : Type := Installer * World.

Definition M (A : Type) : Type := State -> result A * State.

Definition ret {A} (a : A) : M A := fun st => (Ok a, st).

Definition bind {A B} (m : M A) (k : A -> M B) : M B :=
  fun st =>
    match m st with
    | (Ok a, st') => k a st'
    | (Raise e, st') => (Raise e, st')
    end.

Definition raise {A} (e : exn) : M A := fun st => (Raise e, st).

Declare Scope py_scope.
Delimit Scope py_scope with py.
Notation "x <- m ;;; k" := (bind m (fun x => k))
  (at level 100, m at next level, right associativity) : py_scope.
Notation "m ;;; k" := (bind m (fun _ => k))
  (at level 100, right associativity) : py_scope.

Local Open Scope py_scope.

(** Exceptions of the [try] body that [is_caught] selects run the handler,
    the others propagate. *)
Definition try_except {A} (body : M A) (is_caught : exn -> bool)
    (handler : M A) : M A :=
  fun st =>
    match body st with
    | (Raise e, st') => if is_caught e then handler st' else (Raise e, st')
    | r => r
    end.

Definition when (b : bool) (m : M unit) : M unit :=
  if b then m else ret tt.

Definition get_self : M Installer := fun st => (Ok (fst st), st).

Definition get_machine : M Machine := fun st => (Ok (machine (snd st)), st).

Definition with_development_path (i : Installer) (v : option string) : Installer :=
  {| development_path := v;
     check_install_log := check_install_log i;
     log_file := log_file i;
     log := log i;
     cfg_HUB_ORG := cfg_HUB_ORG i;
     cfg_HUB_PACKAGE := cfg_HUB_PACKAGE i |}.

Definition with_log (i : Installer) (v : option (gset string)) : Installer :=
  {| development_path := development_path i;
     check_install_log := check_install_log i;
     log_file := log_file i;
     log := v;
     cfg_HUB_ORG := cfg_HUB_ORG i;
     cfg_HUB_PACKAGE := cfg_HUB_PACKAGE i |}.

Definition with_fs (m : Machine) (f : gmap string node) : Machine :=
  {| fs := f; path_tools := path_tools m; rdkit_module := rdkit_module m |}.

Definition with_machine (w : World) (m : Machine) : World :=
  {| machine := m; calls := calls w |}.

Definition add_call (w : World) (e : event) : World :=
  {| machine := machine w; calls := calls w ++ [e] |}.

Definition set_development_path (v : option string) : M unit :=
  fun st => (Ok tt, (with_development_path (fst st) v, snd st)).

Definition set_log (v : option (gset string)) : M unit :=
  fun st => (Ok tt, (with_log (fst st) v, snd st)).

Definition emit (e : event) : M unit :=
  fun st => (Ok tt, (fst st, add_call (snd st) e)).

(** A file-system operation: the file system changes when it succeeds and
    is left as it was when it raises. *)
Definition fs_op (op : gmap string node -> result (gmap string node)) : M unit :=
  fun st =>
    match op (fs (machine (snd st))) with
    | Ok f => (Ok tt, (fst st, with_machine (snd st) (with_fs (machine (snd st)) f)))
    | Raise e => (Raise e, st)
    end.

Definition os_path_exists (p : string) : M bool :=
  emit (Exists_ p) ;;;
  m <- get_machine ;;;
  ret (Fs.exists_ (fs m) p).

Definition open_read (p : string) : M string :=
  m <- get_machine ;;;
  match Fs.read (fs m) p with
  | Ok c => ret c
  | Raise e => raise e
  end.

Definition shutil_which (name : string) : M (option string) :=
  emit (Which name) ;;;
  m <- get_machine ;;;
  ret (path_tools m !! name).

Definition import_rdkit : M unit :=
  emit (Import "rdkit") ;;;
  m <- get_machine ;;;
  match rdkit_module m with
  | Imported => ret tt
  | ImportRaises e => raise e
  end.

Definition INSTALL_LOG_FILE : string := ".install.log".

(** The text [write_log] produces for the ledger [s]: the loop
    [for l in sorted(self.log): f.write(l+"\n")]. *)
Definition ledger_text (s : gset string) : string :=
  Py.write_lines (Py.sorted (elements s)).

(** The lines [read_log] collects from a file:
    [self.log = []], then [self.log += [l.rstrip()]] for each line. *)
Definition ledger_lines (content : string) : list string :=
  foldl (fun acc l => acc ++ [Py.rstrip l]) [] (Py.file_lines content).

(** ** Vocabulary of the statements *)

(** No line terminator of the text mode inside the string. *)
Fixpoint newline_free (s : string) : bool :=
  match s with
  | EmptyString => true
  | String c r =>
      negb (Ascii.eqb c Py.LF) && negb (Ascii.eqb c Py.CR) && newline_free r
  end.

Definition is_link (n : node) : bool :=
  match n with
  | Symlink _ => true
  | _ => false
  end.

(** The in-memory ledger after [update_log t]: [self.log = {t}] when it was
    None, then [self.log.update([t])]. *)
Definition record (l : option (gset string)) (t : string) : gset string :=
  match l with
  | None => {[ t ]}
  | Some s => s
  end ∪ {[ t ]}.

(** [self.log is not None and t in self.log] *)
Definition recorded (t : string) (ins : Installer) : bool :=
  match log ins with
  | None => false
  | Some s => bool_decide (t ∈ s)
  end.

(** The four ways [_is_done t] can end, from the object [ins] in the world
    [w]. *)
Inductive gate_outcome (t : string) (ins : Installer) (w : World)
  : result bool * State -> Prop :=
| gate_disabled :
    check_install_log ins = false ->
    gate_outcome t ins w (Ok false, (ins, w))
| gate_done :
    check_install_log ins = true ->
    recorded t ins = true ->
    gate_outcome t ins w (Ok true, (ins, w))
| gate_marked f :
    check_install_log ins = true ->
    recorded t ins = false ->
    Fs.write (fs (machine w)) (log_file ins) (ledger_text (record (log ins) t)) = Ok f ->
    gate_outcome t ins w
      (Ok false,
       (with_log ins (Some (record (log ins) t)),
        with_machine w (with_fs (machine w) f)))
| gate_failed e :
    check_install_log ins = true ->
    recorded t ins = false ->
    Fs.write (fs (machine w)) (log_file ins) (ledger_text (record (log ins) t)) = Raise e ->
    gate_outcome t ins w
      (Raise e, (with_log ins (Some (record (log ins) t)), w)).

#[global] Instance exn_eq_dec : EqDecision exn.
Proof. solve_decision. Defined.

#[global] Instance event_eq_dec : EqDecision event.
Proof. solve_decision. Defined.

(** The events a run from [st] to [st'] added to the trace. *)
Definition new_calls (st st' : State) : list event :=
  drop (length (calls (snd st))) (calls (snd st')).

(** How many times the command [cmd] was run. *)
Definition runs (cmd : string) (evs : list event) : nat :=
  length (filter (fun e => e = RunCommand cmd) evs).

Definition is_download (e : event) : bool :=
  match e with
  | DownloadSingle _ _ _ _ => true
  | _ => false
  end.

Ltac run :=
  unfold bind, ret, raise, when, get_self, get_machine, set_log,
    set_development_path, emit, fs_op, os_path_exists, open_read,
    shutil_which; cbn.

(** What every invocation of [conda] leaves behind: with tracking enabled
    the task is in the ledger of the object, with tracking disabled the
    probe of the tool is in the trace. *)
Definition conda_mark (st st' : State) : Prop :=
  recorded "conda" (fst st') = true \/ Which "conda" ∈ new_calls st st'.

(** ** A sample machine *)

Module Sample.

Definition EOS : string := "/home/user/eos".
Definition CONFIG_JSON : string := "config.json".
Definition GITHUB_ORG : string := "ersilia-os".
Definition GITHUB_ERSILIA_REPO : string := "ersilia".
Definition __file__ : string := "/repo/ersilia/utils/installers.py".
Definition LOG : string := OsPath.join EOS INSTALL_LOG_FILE.

(** Commands that change nothing on the machine, a host that cannot be
    reached. *)
Definition quiet : string -> Machine -> Machine := fun _ m => m.
Definition offline
  : string -> string -> string -> string -> Machine -> result unit * Machine :=
  fun _ _ _ _ m => (Raise (OtherError "ConnectionError"), m).

(** An object as [__init__] leaves it when no ledger file exists. *)
Definition fresh : Installer :=
  {| development_path := Some "/repo";
     check_install_log := true;
     log_file := LOG;
     log := None;
     cfg_HUB_ORG := "ersilia-os";
     cfg_HUB_PACKAGE := "ersilia" |}.

Definition undetected : Installer := with_development_path fresh None.

Definition untracked : Installer :=
  {| development_path := Some "/repo";
     check_install_log := false;
     log_file := LOG;
     log := None;
     cfg_HUB_ORG := "ersilia-os";
     cfg_HUB_PACKAGE := "ersilia" |}.

Definition line (s : string) : string := s +:+ String Py.LF EmptyString.

Definition on (f : gmap string node) (tools : gmap string string)
    (rd : import_outcome) : World :=
  {| machine := {| fs := f; path_tools := tools; rdkit_module := rd |};
     calls := [] |}.

(** The data directory alone; the checkout with its configuration file. *)
Definition empty_home : gmap string node := {[ EOS := Dir ]}.
Definition checkout : gmap string node :=
  {[ EOS := Dir;
     "/repo/setup.py" := File true "from setuptools import setup";
     "/repo/config.json" := File true "{}" ]}.

Definition absent : import_outcome := ImportRaises ModuleNotFoundError.

End Sample.

(** ** Vocabulary of the further properties *)

(** What an object may become while steps run on it: the tracking flag, the
    ledger file and the configuration stay, and no name leaves the
    ledger. *)
Definition grows (ins ins' : Installer) : Prop :=
  check_install_log ins' = check_install_log ins /\
  log_file ins' = log_file ins /\
  cfg_HUB_ORG ins' = cfg_HUB_ORG ins /\
  cfg_HUB_PACKAGE ins' = cfg_HUB_PACKAGE ins /\
  (forall u, recorded u ins = true -> recorded u ins' = true) /\
  (check_install_log ins = false -> log ins' = log ins).

(** A line as the text mode delivers it: no carriage return, and a line
    feed only as its last character. *)
Fixpoint delivered_line (l : string) : bool :=
  match l with
  | EmptyString => true
  | String c r =>
      if Ascii.eqb c Py.LF then
        match r with
        | EmptyString => true
        | _ => false
        end
      else negb (Ascii.eqb c Py.CR) && delivered_line r
  end.

(** A computation that changes the object only by growth, from any state. *)
Definition keeps {A} (m : M A) : Prop :=
  forall ins w, grows ins (fst (snd (m (ins, w)))).

(** A computation that only appends to the trace, and only events that
    satisfy [P]. *)
Definition emits {A} (P : event -> bool) (m : M A) : Prop :=
  forall st, exists evs,
    calls (snd (snd (m st))) = calls (snd st) ++ evs /\
    forallb P evs = true.

Definition is_run (cmd : string) (e : event) : bool :=
  bool_decide (e = RunCommand cmd).

Definition not_pip (e : event) : bool :=
  negb (is_run "pip install -y conda" e).

(** The steps of a list run one after the other, stopping at the first
    that raises. *)
Definition sequence (steps : list (M unit)) : M unit :=
  foldr (fun m k => bind m (fun _ => k)) (ret tt) steps.

(** ** More of Python's strings and lists *)

Module PyStr.

Definition NL : string := String Py.LF EmptyString.

(** [s.split("\n")] *)
Fixpoint split_lf (s : string) : list string :=
  match s with
  | EmptyString => [EmptyString]
  | String c r =>
      if Ascii.eqb c Py.LF then EmptyString :: split_lf r
      else match split_lf r with
           | l :: ls => String c l :: ls
           | [] => [String c EmptyString]
           end
  end.

(** [s[n:]] *)
Fixpoint drop_chars (n : nat) (s : string) : string :=
  match n, s with
  | O, _ => s
  | S n', String _ r => drop_chars n' r
  | S _, EmptyString => EmptyString
  end.

(** [xs[1:-1]] *)
Definition slice_1_m1 {A} (xs : list A) : list A := removelast (tail xs).

(** No line feed in the string. *)
Fixpoint no_lf (s : string) : bool :=
  match s with
  | EmptyString => true
  | String c r => negb (Ascii.eqb c Py.LF) && no_lf r
  end.

End PyStr.

(** A call of a collaborator that lives outside the embedded module: it may
    answer or raise, and change the machine. *)
Definition external {A} (eff : Machine -> result A * Machine) : M A :=
  fun st =>
    let r := eff (machine (snd st)) in
    (fst r, (fst st, with_machine (snd st) (snd r))).

Definition with_check_install_log (i : Installer) (v : bool) : Installer :=
  {| development_path := development_path i;
     check_install_log := v;
     log_file := log_file i;
     log := log i;
     cfg_HUB_ORG := cfg_HUB_ORG i;
     cfg_HUB_PACKAGE := cfg_HUB_PACKAGE i |}.

Definition with_log_file (i : Installer) (v : string) : Installer :=
  {| development_path := development_path i;
     check_install_log := check_install_log i;
     log_file := v;
     log := log i;
     cfg_HUB_ORG := cfg_HUB_ORG i;
     cfg_HUB_PACKAGE := cfg_HUB_PACKAGE i |}.

Definition with_cfg (i : Installer) (v : string * string) : Installer :=
  {| development_path := development_path i;
     check_install_log := check_install_log i;
     log_file := log_file i;
     log := log i;
     cfg_HUB_ORG := fst v;
     cfg_HUB_PACKAGE := snd v |}.

Definition modify_self (f : Installer -> Installer) : M unit :=
  fun st => (Ok tt, (f (fst st), snd st)).

(** *** The texts [base_conda] and [server_docker] generate *)

(** The three parts of the shell script, after [str.format]. *)
Definition bash_deactivate (prefix : string) : string :=
  PyStr.NL +:+ "            source $" +:+ prefix +:+ "/etc/profile.d/conda.sh" +:+
  PyStr.NL +:+ "            conda deactivate" +:+
  PyStr.NL +:+ "            ".

Definition bash_source (prefix : string) : string :=
  PyStr.NL +:+ "        source $" +:+ prefix +:+ "/etc/profile.d/conda.sh" +:+
  PyStr.NL +:+ "        ".

Definition bash_create (tmp_repo env python tmp_python_script : string) : string :=
  PyStr.NL +:+ "        cd " +:+ tmp_repo +:+
  PyStr.NL +:+ "        conda create -n " +:+ env +:+ " python=" +:+ python +:+ " -y" +:+
  PyStr.NL +:+ "        conda activate " +:+ env +:+
  PyStr.NL +:+ "        pip install -e ." +:+
  PyStr.NL +:+ "        python " +:+ tmp_python_script +:+
  PyStr.NL +:+ "        conda deactivate" +:+
  PyStr.NL +:+ "        ".

Definition python_script : string :=
  PyStr.NL +:+ "        from ersilia.utils.installers import base_installer" +:+
  PyStr.NL +:+ "        base_installer()" +:+
  PyStr.NL +:+ "        ".

(** What the loop [for l in lines: f.write(l[8:]+"\n")] over
    [python_script.split("\n")] writes. *)
Definition python_script_text : string :=
  Py.write_lines (map (PyStr.drop_chars 8) (PyStr.split_lf python_script)).

(** The manifest template after [str.format]. *)
Definition dockerfile (bentoml_version workdir : string) : string :=
  PyStr.NL +:+ "        FROM bentoml/model-server:" +:+ bentoml_version +:+
  PyStr.NL +:+ "        MAINTAINER ersilia" +:+
  PyStr.NL +:+
  PyStr.NL +:+ "        ENV LC_ALL=C.UTF-8" +:+
  PyStr.NL +:+ "        ENV LANG=C.UTF-8" +:+
  PyStr.NL +:+
  PyStr.NL +:+ "        WORKDIR " +:+ workdir +:+
  PyStr.NL +:+
  PyStr.NL +:+ "        COPY . ." +:+
  PyStr.NL +:+
  PyStr.NL +:+ "        RUN conda --version" +:+
  PyStr.NL +:+
  PyStr.NL +:+ "        RUN conda install -c conda-forge rdkit" +:+
  PyStr.NL +:+ "        RUN pip install ." +:+
  PyStr.NL +:+ "        ".

(** What [lines = dockerfile.split("\n")], [lines = lines[1:-1]] and the
    loop [for l in lines: f.write(l[8:]+"\n")] write. *)
Definition dockerfile_text (bentoml_version workdir : string) : string :=
  Py.write_lines
    (map (PyStr.drop_chars 8)
       (PyStr.slice_1_m1 (PyStr.split_lf (dockerfile bentoml_version workdir)))).

(** ** [RunTracker.check_types] of [ersilia/core/tracking.py] *)

Module Tracking.

Inductive error :=
| KeyError (key : string)
| IndexError.

(** What the method reads of its arguments: of the data frame, the columns
    in order, each with its name and the name of its dtype ([str(dtype)]);
    of the metadata, the two entries it looks up, [None] for a key that the
    dictionary does not hold. *)
Record Column := { name : string; dtype : string }.

Record Metadata := {
  Output_Type : option (list string);
  Output_Shape : option string;
}.

Inductive message :=
| ExpectedList            (* Not right shape. Expected List but got Single *)
| ExpectedSingle          (* Not right shape. Expected Single but got List *)
| CorrectShape            (* Output is correct shape. *)
| Mismatched (count : nat).   (* Output has <count> mismatched types. *)

Record Report := { mismatched_types : nat; correct_shape : bool }.

(** [typeDict[s]] *)
Definition typeDict (s : string) : option string :=
  if String.eqb s "float64" then Some "Float"
  else if String.eqb s "int64" then Some "Int"
  else None.

(** [resultDf.loc[:, ~resultDf.columns.isin(["key", "input"])].dtypes] *)
Definition dtypesLst (resultDf : list Column) : list string :=
  map dtype
    (filter (fun c => negb (String.eqb (name c) "key" || String.eqb (name c) "input") = true)
       resultDf).

(** The loop over [dtypesLst]. *)
Fixpoint count_loop (dtypes : list string) (metadata : Metadata) (count : nat)
  : error + nat :=
  match dtypes with
  | [] => inr count
  | i :: rest =>
      match typeDict i with
      | None => inl (KeyError i)
      | Some ty =>
          match Output_Type metadata with
          | None => inl (KeyError "Output Type")
          | Some [] => inl IndexError
          | Some (expected :: _) =>
              count_loop rest metadata
                (if negb (String.eqb ty expected) then S count else count)
          end
      end
  end.

(** The answer of [check_types], with what it printed. *)
Definition check_types (resultDf : list Column) (metadata : Metadata)
  : error + (list message * Report) :=
  let dtypes := dtypesLst resultDf in
  match count_loop dtypes metadata 0 with
  | inl e => inl e
  | inr count =>
      let shape :=
        if (1 <? length dtypes)%nat then
          match Output_Shape metadata with
          | None => inl (KeyError "Output Shape")
          | Some s =>
              if negb (String.eqb s "List") then inr (ExpectedList, false)
              else inr (CorrectShape, true)
          end
        else if (length dtypes =? 1)%nat then
          match Output_Shape metadata with
          | None => inl (KeyError "Output Shape")
          | Some s =>
              if negb (String.eqb s "Single") then inr (ExpectedSingle, false)
              else inr (CorrectShape, true)
          end
        else inr (CorrectShape, true)
      in
      match shape with
      | inl e => inl e
      | inr (msg, correct) =>
          inr ([msg; Mismatched count],
               {| mismatched_types := count; correct_shape := correct |})
      end
  end.

End Tracking.

(** ** Sample collaborators *)

Module Scenario.

Definition CREDENTIALS_JSON : string := "credentials.json".
Definition IMAGE_WORKDIR : string := "/bento".
Definition base_conda_name : string := "eosbase-bentoml-0.11.0-python-3.7".
Definition python_version : string := "3.7".
Definition bentoml_version : string := "0.11.0".
Definition server_docker_name : string * string * string :=
  ("ersiliaos", "server", "0.11.0").
Definition TMP : string := "/tmp/tmpab12".

Definition put (p : string) (n : node) (m : Machine) : Machine :=
  with_fs m (<[p := n]> (fs m)).

Definition fetch : Machine -> result unit * Machine :=
  fun m => (Ok tt, m).
Definition to_credentials : string -> Machine -> result bool * Machine :=
  fun p m => (Ok true, put p (File true "{}") m).
Definition copytree : string -> string -> Machine -> result unit * Machine :=
  fun _ dst m => (Ok tt, put dst Dir m).
Definition clone : string -> string -> string -> Machine -> result unit * Machine :=
  fun _ _ _ m => (Raise (OtherError "ConnectionError"), m).
Definition mkdtemp : Machine -> result string * Machine :=
  fun m => (Ok TMP, put TMP Dir m).
Definition conda_exists : string -> Machine -> result bool * Machine :=
  fun _ m => (Ok false, m).
Definition conda_is_base : Machine -> result bool * Machine :=
  fun m => (Ok true, m).
Definition conda_prefix : bool -> Machine -> result string * Machine :=
  fun _ m => (Ok "/opt/conda", m).
Definition docker_exists
  : string -> string -> string -> Machine -> result bool * Machine :=
  fun _ _ _ m => (Ok false, m).
Definition docker_found
  : string -> string -> string -> Machine -> result bool * Machine :=
  fun _ _ _ m => (Ok true, m).
Definition docker_build
  : string -> string -> string -> string -> Machine -> result unit * Machine :=
  fun _ _ _ _ m => (Ok tt, m).
Definition ersilia_base : Machine -> result (string * string) * Machine :=
  fun m => (Ok ("ersilia-os", "ersilia"), m).

(** A machine set up by an earlier run: configuration and credentials in
    place, and a ledger with three names. *)
Definition bootstrapped : gmap string node :=
  {[ Sample.EOS := Dir;
     "/home/user/eos/config.json" := File true "{}";
     "/home/user/eos/credentials.json" := File true "{}";
     Sample.LOG := File true
       (Sample.line "conda" +:+ Sample.line "git" +:+ Sample.line "rdkit") ]}.

Definition frame : list Tracking.Column :=
  [ {| Tracking.name := "key"; Tracking.dtype := "object" |};
    {| Tracking.name := "input"; Tracking.dtype := "object" |};
    {| Tracking.name := "score"; Tracking.dtype := "float64" |};
    {| Tracking.name := "rank"; Tracking.dtype := "int64" |} ].

Definition floats : Tracking.Metadata :=
  {| Tracking.Output_Type := Some ["Float"];
     Tracking.Output_Shape := Some "List" |}.

End Scenario.

Section Installer.

Set Default Proof Using "Type".

(** Constants of [ersilia.default], and the path of the module file. *)
Variables EOS CONFIG_JSON GITHUB_ORG GITHUB_ERSILIA_REPO : string.
Variable __file__ : string.

(** The collaborators [run_command] and [GitHubDownloader.download_single]
    are not part of the embedded module: what they do to the machine is
    left open. *)
Variable run_command_effect : string -> Machine -> Machine.
Variable download_single_effect :
  string -> string -> string -> string -> Machine -> result unit * Machine.

Definition run_command (cmd : string) : M unit :=
  fun st =>
    (Ok tt,
     (fst st,
      add_call (with_machine (snd st) (run_command_effect cmd (machine (snd st))))
        (RunCommand cmd))).

Definition download_single (org repo file dst : string) : M unit :=
  fun st =>
    let r := download_single_effect org repo file dst (machine (snd st)) in
    (fst r,
     (fst st,
      add_call (with_machine (snd st) (snd r))
        (DownloadSingle org repo file dst))).

Definition _package_path : M unit :=
  self <- get_self ;;;
  match development_path self with
  | None =>
      let path := OsPath.dirname __file__ in
      let path := Nat.iter 2 (fun p => fst (OsPath.split p)) path in
      e <- os_path_exists (OsPath.join path "setup.py") ;;;
      when (negb e) (set_development_path None) ;;;
      e <- os_path_exists (OsPath.join path "README.md") ;;;
      when (negb e) (set_development_path None) ;;;
      e <- os_path_exists (OsPath.join path "CODE_OF_CONDUCT.md") ;;;
      when (negb e) (set_development_path None) ;;;
      set_development_path (Some path)
  | Some _ => ret tt
  end.

Definition _config : M unit :=
  let dst := OsPath.join EOS CONFIG_JSON in
  e <- os_path_exists dst ;;;
  if e then ret tt else
  _package_path ;;;
  self <- get_self ;;;
  src <- match development_path self with
         | None => ret (None, false)
         | Some d =>
             let src := OsPath.join d CONFIG_JSON in
             src_exists <- os_path_exists src ;;;
             ret (Some src, src_exists)
         end ;;;
  if snd src then
    match fst src with
    | Some src => fs_op (fun f => Fs.symlink f src dst)
    | None => raise (OtherError "UnboundLocalError")
    end
  else
    download_single GITHUB_ORG GITHUB_ERSILIA_REPO CONFIG_JSON
      (OsPath.join EOS CONFIG_JSON).

Definition write_log : M unit :=
  self <- get_self ;;;
  match log self with
  | None => ret tt
  | Some s => fs_op (fun f => Fs.write f (log_file self) (ledger_text s))
  end.

Definition update_log (task : string) : M unit :=
  self <- get_self ;;;
  match log self with
  | None => set_log (Some {[ task ]})
  | Some _ => ret tt
  end ;;;
  self <- get_self ;;;
  match log self with
  | Some s => set_log (Some (s ∪ {[ task ]}))
  | None => raise (OtherError "AttributeError")
  end ;;;
  write_log.

Definition read_log : M unit :=
  self <- get_self ;;;
  e <- os_path_exists (log_file self) ;;;
  if negb e then ret tt else
  f <- open_read (log_file self) ;;;
  set_log (Some (list_to_set (ledger_lines f))).

Definition remove_log : M unit :=
  self <- get_self ;;;
  e <- os_path_exists (log_file self) ;;;
  when e (fs_op (fun f => Fs.remove f (log_file self))).

Definition _is_done (name : string) : M bool :=
  self <- get_self ;;;
  if negb (check_install_log self) then ret false else
  if match log self with
     | None => false
     | Some s => bool_decide (name ∈ s)
     end
  then ret true
  else update_log name ;;; ret false.

Definition _is_tool (name : string) : M bool :=
  p <- shutil_which name ;;;
  ret (match p with Some _ => true | None => false end).

Definition conda : M unit :=
  d <- _is_done "conda" ;;;
  if d then ret tt else
  t <- _is_tool "conda" ;;;
  if t then ret tt else
  run_command "pip install -y conda".

Definition git : M unit :=
  d <- _is_done "git" ;;;
  if d then ret tt else
  t <- _is_tool "git" ;;;
  if t then ret tt else
  conda ;;;
  run_command "conda install -y -q git".

Definition rdkit : M unit :=
  d <- _is_done "rdkit" ;;;
  if d then ret tt else
  exists_ <- try_except
               (import_rdkit ;;; ret true)
               (fun e => match e with ModuleNotFoundError => true | _ => false end)
               (ret false) ;;;
  if exists_ then ret tt else
  run_command "conda install -c conda-forge -y -q rdkit".

Definition config : M unit :=
  d <- _is_done "config" ;;;
  if d then ret tt else
  e <- os_path_exists (OsPath.join EOS CONFIG_JSON) ;;;
  if e then ret tt else
  fs_op (fun f => Fs.makedirs f EOS) ;;;
  _package_path ;;;
  self <- get_self ;;;
  let dev_path := development_path self in
  match dev_path with
  | Some dev_path =>
      let src := OsPath.join dev_path CONFIG_JSON in
      let dst := OsPath.join EOS CONFIG_JSON in
      fs_op (fun f => Fs.copyfile f src dst)
  | None =>
      download_single (cfg_HUB_ORG self) (cfg_HUB_PACKAGE self) CONFIG_JSON
        (OsPath.join EOS CONFIG_JSON)
  end.

(** The directory [_package_path] computes from the module file: two levels
    above the directory of [__file__]. *)
Definition candidate_dir : string :=
  Nat.iter 2 (fun p => fst (OsPath.split p)) (OsPath.dirname __file__).


(** *** The rest of the module *)

(** More constants of [ersilia.default] and of the configuration, the
    answers of [Versioner], and the collaborators [Secrets],
    [shutil.copytree], [GitHubDownloader.clone], [tempfile.mkdtemp],
    [SimpleConda], [SimpleDocker] and [ErsiliaBase.__init__], which answers
    with [cfg.HUB.ORG] and [cfg.HUB.PACKAGE]. *)
Variable CREDENTIALS_JSON : string.
Variable cfg_ENV_DOCKER_IMAGE_WORKDIR : string.
Variables Versioner_base_conda_name Versioner_python_version
  Versioner_bentoml_version : string.
Variable Versioner_server_docker_name : string * string * string.
Variable Secrets_fetch_from_github : Machine -> result unit * Machine.
Variable Secrets_to_credentials : string -> Machine -> result bool * Machine.
Variable shutil_copytree : string -> string -> Machine -> result unit * Machine.
Variable GitHubDownloader_clone :
  string -> string -> string -> Machine -> result unit * Machine.
Variable tempfile_mkdtemp : Machine -> result string * Machine.
Variable SimpleConda_exists : string -> Machine -> result bool * Machine.
Variable SimpleConda_is_base : Machine -> result bool * Machine.
Variable SimpleConda_conda_prefix : bool -> Machine -> result string * Machine.
Variable SimpleDocker_exists :
  string -> string -> string -> Machine -> result bool * Machine.
Variable SimpleDocker_build :
  string -> string -> string -> string -> Machine -> result unit * Machine.
Variable ErsiliaBase___init__ : Machine -> result (string * string) * Machine.

Definition _credentials : M unit :=
  let dst := OsPath.join EOS CREDENTIALS_JSON in
  e <- os_path_exists dst ;;;
  if e then ret tt else
  _package_path ;;;
  self <- get_self ;;;
  src <- match development_path self with
         | None => ret (None, false)
         | Some d =>
             let src := OsPath.join d CREDENTIALS_JSON in
             src_exists <- os_path_exists src ;;;
             ret (Some src, src_exists)
         end ;;;
  match fst src with
  | None => raise (OtherError "UnboundLocalError")
  | Some src =>
      e <- os_path_exists src ;;;
      if e then fs_op (fun f => Fs.symlink f src dst)
      else
        external Secrets_fetch_from_github ;;;
        self <- get_self ;;;
        match development_path self with
        | None =>
            done <- external (Secrets_to_credentials dst) ;;;
            ret tt
        | Some _ =>
            done <- external (Secrets_to_credentials src) ;;;
            if done then fs_op (fun f => Fs.symlink f src dst) else ret tt
        end
  end.

Definition __init__ (check_install_log : bool) : M unit :=
  set_development_path None ;;;
  _config ;;;
  _credentials ;;;
  cfg <- external ErsiliaBase___init__ ;;;
  modify_self (fun i => with_cfg i cfg) ;;;
  modify_self (fun i => with_check_install_log i check_install_log) ;;;
  modify_self (fun i => with_log_file i (OsPath.join EOS INSTALL_LOG_FILE)) ;;;
  set_log None ;;;
  read_log.

Definition _clone_repo (path : string) : M string :=
  self <- get_self ;;;
  let path_repo := OsPath.join path (cfg_HUB_PACKAGE self) in
  _package_path ;;;
  self <- get_self ;;;
  let dev_path := development_path self in
  match dev_path with
  | Some dev_path => external (shutil_copytree dev_path path_repo)
  | None =>
      external (GitHubDownloader_clone (cfg_HUB_ORG self) (cfg_HUB_PACKAGE self)
                  path_repo)
  end ;;;
  ret path_repo.

Definition base_conda : M unit :=
  d <- _is_done "base_conda" ;;;
  if d then ret tt else
  let eos_base_env := Versioner_base_conda_name in
  e <- external (SimpleConda_exists eos_base_env) ;;;
  if e then ret tt else
  tmp_folder <- external tempfile_mkdtemp ;;;
  tmp_repo <- _clone_repo tmp_folder ;;;
  let tmp_script := OsPath.join tmp_folder "script.sh" in
  let tmp_python_script := OsPath.join tmp_folder "base_intaller.py" in
  is_base <- external SimpleConda_is_base ;;;
  bash_script <- (if negb is_base then
                    p <- external (SimpleConda_conda_prefix false) ;;;
                    ret (bash_deactivate p)
                  else ret EmptyString) ;;;
  p <- external (SimpleConda_conda_prefix true) ;;;
  let bash_script := bash_script +:+ bash_source p in
  let bash_script :=
    bash_script +:+ bash_create tmp_repo eos_base_env Versioner_python_version
                      tmp_python_script in
  fs_op (fun f => Fs.write f tmp_script bash_script) ;;;
  fs_op (fun f => Fs.write f tmp_python_script python_script_text) ;;;
  run_command ("bash " +:+ tmp_script).

Definition server_docker : M unit :=
  d <- _is_done "server_docker" ;;;
  if d then ret tt else
  let org := fst (fst Versioner_server_docker_name) in
  let img := snd (fst Versioner_server_docker_name) in
  let tag := snd Versioner_server_docker_name in
  e <- external (SimpleDocker_exists org img tag) ;;;
  if e then ret tt else
  tmp_dir <- external tempfile_mkdtemp ;;;
  tmp_repo <- _clone_repo tmp_dir ;;;
  let path := OsPath.join tmp_repo "Dockerfile" in
  fs_op (fun f =>
    Fs.write f path
      (dockerfile_text Versioner_bentoml_version cfg_ENV_DOCKER_IMAGE_WORKDIR)) ;;;
  external (SimpleDocker_build tmp_repo org img tag).

Definition base_installer : M unit :=
  __init__ false ;;;
  rdkit.

Definition check_dependencies : M unit :=
  __init__ true ;;;
  conda ;;;
  git ;;;
  rdkit ;;;
  config ;;;
  base_conda ;;;
  server_docker.

(** [set_solver] on a goal that does not speak of the collaborators. *)
Ltac set_solve :=
  try clear download_single_effect; try clear run_command_effect;
  try clear __file__; try clear GITHUB_ERSILIA_REPO; try clear GITHUB_ORG;
  try clear CONFIG_JSON; try clear EOS;
  try clear ErsiliaBase___init__; try clear SimpleDocker_build;
  try clear SimpleDocker_exists; try clear SimpleConda_conda_prefix;
  try clear SimpleConda_is_base; try clear SimpleConda_exists;
  try clear tempfile_mkdtemp; try clear GitHubDownloader_clone;
  try clear shutil_copytree; try clear Secrets_to_credentials;
  try clear Secrets_fetch_from_github; try clear Versioner_server_docker_name;
  try clear Versioner_bentoml_version; try clear Versioner_python_version;
  try clear Versioner_base_conda_name; try clear cfg_ENV_DOCKER_IMAGE_WORKDIR;
  try clear CREDENTIALS_JSON;
  set_solver.

(** * Properties *)

(** ** Text of the ledger file *)

Lemma append_cons c (s t : string) : String c s +:+ t = String c (s +:+ t).
Proof. reflexivity. Qed.

Lemma rstrip_terminated s :
  Py.rstrip (s +:+ String Py.LF EmptyString) = Py.rstrip s.
Proof.
  induction s as [|c s IH].
  - reflexivity.
  - rewrite append_cons. cbn [Py.rstrip]. now rewrite IH.
Qed.

Lemma file_lines_terminated l rest :
  newline_free l = true ->
  Py.file_lines ((l +:+ String Py.LF EmptyString) +:+ rest)
  = (l +:+ String Py.LF EmptyString) :: Py.file_lines rest.
Proof.
  induction l as [|c l IH]; intros Hl.
  - reflexivity.
  - cbn [newline_free] in Hl.
    apply andb_prop in Hl as [Hc Hl]. apply andb_prop in Hc as [Hlf Hcr].
    apply negb_true_iff in Hlf, Hcr.
    rewrite !append_cons. cbn [Py.file_lines].
    rewrite Hlf, Hcr, (IH Hl). reflexivity.
Qed.

Lemma foldl_snoc_map {A B} (f : A -> B) (xs : list A) (acc : list B) :
  foldl (fun acc x => acc ++ [f x]) acc xs = acc ++ map f xs.
Proof.
  revert acc. induction xs as [|x xs IH]; intros acc; cbn.
  - now rewrite app_nil_r.
  - rewrite IH, <- app_assoc. reflexivity.
Qed.

Lemma ledger_lines_write_lines xs :
  Forall (fun s => newline_free s = true /\ Py.rstrip s = s) xs ->
  ledger_lines (Py.write_lines xs) = xs.
Proof.
  unfold ledger_lines. rewrite foldl_snoc_map. cbn [app].
  induction 1 as [|s xs [Hnl Hrs] _ IH]; cbn [Py.write_lines].
  - reflexivity.
  - rewrite file_lines_terminated by assumption. cbn [map].
    rewrite rstrip_terminated, Hrs, IH. reflexivity.
Qed.

Lemma ledger_lines_ledger_text (s : gset string) :
  (forall t, t ∈ s -> newline_free t = true /\ Py.rstrip t = t) ->
  list_to_set (ledger_lines (ledger_text s)) = s.
Proof.
  intros Hs. unfold ledger_text.
  rewrite ledger_lines_write_lines.
  - unfold Py.sorted. rewrite (merge_sort_Permutation String.le (elements s)).
    apply list_to_set_elements_L.
  - apply Forall_forall. intros t Ht. apply Hs.
    unfold Py.sorted in Ht. rewrite merge_sort_Permutation in Ht.
    now apply elem_of_elements.
Qed.

Lemma ledger_text_sorted (s : gset string) :
  exists xs, ledger_text s = Py.write_lines xs /\
             Sorted String.le xs /\ xs ≡ₚ elements s.
Proof.
  exists (Py.sorted (elements s)). split; [reflexivity|]. split.
  - apply Sorted_merge_sort. apply _.
  - apply merge_sort_Permutation.
Qed.

(** ** File system *)

Lemma resolve_end n (f : gmap string node) p :
  match Fs.resolve n f p with
  | Fs.Found q nd => f !! q = Some nd /\ is_link nd = false
  | Fs.Missing q => f !! q = None
  | Fs.Loop => True
  end.
Proof.
  revert p. induction n as [|n IH]; intros p; cbn [Fs.resolve];
    destruct (f !! p) as [[perm c| |t]|] eqn:Hp; auto.
  apply IH.
Qed.

Lemma resolve_insert_end n (f : gmap string node) p q nd :
  is_link nd = false ->
  match Fs.resolve n f p with
  | Fs.Found q' _ | Fs.Missing q' => q' = q
  | Fs.Loop => False
  end ->
  Fs.resolve n (<[q := nd]> f) p = Fs.Found q nd.
Proof.
  intros Hnd. revert p. induction n as [|n IH]; intros p; cbn [Fs.resolve];
    destruct (f !! p) as [[perm c| |t]|] eqn:Hp; intros Hq; subst;
    try (rewrite lookup_insert_eq; destruct nd; (discriminate || reflexivity));
    try contradiction.
  assert (p <> q) as Hne.
  { intros ->. pose proof (resolve_end n f t) as He.
    destruct (Fs.resolve n f t) as [q' nd'|q'|]; [| |contradiction]; subst q'.
    - destruct He as [He Hl]. rewrite Hp in He. injection He as <-.
      discriminate Hl.
    - rewrite Hp in He. discriminate He. }
  rewrite lookup_insert_ne, Hp by congruence. now apply IH.
Qed.

Lemma write_then_read (f f' : gmap string node) p c :
  Fs.write f p c = Ok f' ->
  Fs.read f' p = Ok c /\ Fs.exists_ f' p = true.
Proof.
  unfold Fs.write, Fs.read, Fs.exists_, Fs.locate. intros Hw.
  assert (Fs.resolve Fs.MAXSYMLINKS f' p
          = Fs.Found match Fs.resolve Fs.MAXSYMLINKS f p with
                     | Fs.Found q _ | Fs.Missing q => q
                     | Fs.Loop => p
                     end (File true c)) as ->.
  { destruct (Fs.resolve Fs.MAXSYMLINKS f p) as [q [[] c'| |t]|q|] eqn:Hr;
      try discriminate; injection Hw as <-;
      apply resolve_insert_end; try reflexivity; now rewrite Hr. }
  split; reflexivity.
Qed.


(** ** The ledger and its gate *)

Lemma update_log_eq t ins w :
  update_log t (ins, w) =
  match Fs.write (fs (machine w)) (log_file ins)
          (ledger_text (record (log ins) t)) with
  | Ok f => (Ok tt, (with_log ins (Some (record (log ins) t)),
                     with_machine w (with_fs (machine w) f)))
  | Raise e => (Raise e, (with_log ins (Some (record (log ins) t)), w))
  end.
Proof.
  destruct ins as [dp chk lf [s|] org pkg];
    unfold update_log, write_log, record; run;
    destruct (Fs.write _ _ _); reflexivity.
Qed.

Lemma _is_done_outcome t ins w : gate_outcome t ins w (_is_done t (ins, w)).
Proof.
  unfold _is_done, bind, get_self, ret. cbn [fst snd].
  destruct (check_install_log ins) eqn:Hc; cbn [negb]; [|now constructor].
  fold (recorded t ins).
  destruct (recorded t ins) eqn:Hr; [now constructor|].
  rewrite update_log_eq.
  destruct (Fs.write _ _ _) eqn:Hw; now constructor.
Qed.

Lemma elem_of_record l t : t ∈ record l t.
Proof. unfold record. set_solve. Qed.

Lemma record_mono l t u s : l = Some s -> u ∈ s -> u ∈ record l t.
Proof. intros -> Hu. unfold record. set_solve. Qed.

Lemma recorded_true t ins :
  recorded t ins = true <-> exists s, log ins = Some s /\ t ∈ s.
Proof.
  unfold recorded. destruct (log ins) as [s|].
  - rewrite bool_decide_eq_true. split; [eauto|]. now intros (? & [= ->] & ?).
  - split; [discriminate|]. now intros (? & [=] & _).
Qed.

Lemma recorded_with_log ins l t : recorded t (with_log ins (Some (record l t))) = true.
Proof. apply recorded_true. eexists; split; [reflexivity|apply elem_of_record]. Qed.

Lemma _is_done_disabled t ins w :
  check_install_log ins = false -> _is_done t (ins, w) = (Ok false, (ins, w)).
Proof.
  intros Hc. pose proof (_is_done_outcome t ins w) as H.
  inversion H; congruence.
Qed.

Lemma _is_done_recorded t ins w :
  check_install_log ins = true -> recorded t ins = true ->
  _is_done t (ins, w) = (Ok true, (ins, w)).
Proof.
  intros Hc Hr. pose proof (_is_done_outcome t ins w) as H.
  inversion H; congruence.
Qed.

Lemma _is_done_fresh t ins w f :
  check_install_log ins = true -> recorded t ins = false ->
  Fs.write (fs (machine w)) (log_file ins) (ledger_text (record (log ins) t)) = Ok f ->
  _is_done t (ins, w)
  = (Ok false, (with_log ins (Some (record (log ins) t)),
                with_machine w (with_fs (machine w) f))).
Proof.
  intros Hc Hr Hw. pose proof (_is_done_outcome t ins w) as H.
  inversion H; congruence.
Qed.

Lemma _is_done_failed t ins w e :
  check_install_log ins = true -> recorded t ins = false ->
  Fs.write (fs (machine w)) (log_file ins) (ledger_text (record (log ins) t)) = Raise e ->
  _is_done t (ins, w)
  = (Raise e, (with_log ins (Some (record (log ins) t)), w)).
Proof.
  intros Hc Hr Hw. pose proof (_is_done_outcome t ins w) as H.
  inversion H; congruence.
Qed.


(** ** The steps behind the gate *)

Lemma _is_tool_eq name ins w :
  _is_tool name (ins, w)
  = (Ok (match path_tools (machine w) !! name with
         | Some _ => true
         | None => false
         end),
     (ins, add_call w (Which name))).
Proof. reflexivity. Qed.

Lemma os_path_exists_eq p ins w :
  os_path_exists p (ins, w)
  = (Ok (Fs.exists_ (fs (machine w)) p), (ins, add_call w (Exists_ p))).
Proof. reflexivity. Qed.

(** C9: a task already in the loaded ledger is skipped: the gate answers
    true and leaves the object and the world (the ledger file included) as
    they were, and the step returns at once, running neither its probe nor
    its action, whatever the machine holds. *)
Theorem C9_recorded_task_is_skipped t ins w s :
  check_install_log ins = true ->
  log ins = Some s ->
  t ∈ s ->
  _is_done t (ins, w) = (Ok true, (ins, w)) /\
  (t = "conda" -> conda (ins, w) = (Ok tt, (ins, w))) /\
  (t = "git" -> git (ins, w) = (Ok tt, (ins, w))) /\
  (t = "rdkit" -> rdkit (ins, w) = (Ok tt, (ins, w))) /\
  (t = "config" -> config (ins, w) = (Ok tt, (ins, w))).
Proof.
  intros Hc Hl Ht.
  assert (_is_done t (ins, w) = (Ok true, (ins, w))) as Hd.
  { apply _is_done_recorded; [assumption|]. apply recorded_true. eauto. }
  split; [exact Hd|].
  repeat split; intros ->; unfold conda, git, rdkit, config, bind;
    rewrite Hd; reflexivity.
Qed.

(** C1: for a task [t] that the ledger does not hold yet, with tracking
    enabled and a ledger file that can be written, the gate records [t] in
    the ledger and in its file before any probe runs; when the probe of the
    step then finds the capability, the step returns with the probe as its
    only event: the action is not run, and [t] stays recorded. *)
Theorem C1_probe_short_circuit t ins w f :
  check_install_log ins = true ->
  recorded t ins = false ->
  Fs.write (fs (machine w)) (log_file ins) (ledger_text (record (log ins) t)) = Ok f ->
  let ins' := with_log ins (Some (record (log ins) t)) in
  let w' := with_machine w (with_fs (machine w) f) in
  _is_done t (ins, w) = (Ok false, (ins', w')) /\
  t ∈ record (log ins) t /\
  (exists xs, Fs.read f (log_file ins) = Ok (Py.write_lines xs) /\ t ∈ xs) /\
  (t = "conda" -> is_Some (path_tools (machine w) !! "conda") ->
   conda (ins, w) = (Ok tt, (ins', add_call w' (Which "conda")))) /\
  (t = "git" -> is_Some (path_tools (machine w) !! "git") ->
   git (ins, w) = (Ok tt, (ins', add_call w' (Which "git")))) /\
  (t = "rdkit" -> rdkit_module (machine w) = Imported ->
   rdkit (ins, w) = (Ok tt, (ins', add_call w' (Import "rdkit")))) /\
  (t = "config" -> Fs.exists_ f (OsPath.join EOS CONFIG_JSON) = true ->
   config (ins, w)
   = (Ok tt, (ins', add_call w' (Exists_ (OsPath.join EOS CONFIG_JSON))))).
Proof.
  intros Hc Hr Hw ins' w'.
  pose proof (_is_done_fresh t ins w f Hc Hr Hw) as Hd. fold ins' w' in Hd.
  split; [exact Hd|]. split; [apply elem_of_record|]. split.
  { exists (Py.sorted (elements (record (log ins) t))). split.
    - now apply write_then_read in Hw as [-> _].
    - unfold Py.sorted. rewrite merge_sort_Permutation.
      apply elem_of_elements, elem_of_record. }
  repeat split; intros ->.
  - intros [x Hx]. unfold conda, bind. rewrite Hd, _is_tool_eq. cbn.
    now rewrite Hx.
  - intros [x Hx]. unfold git, bind. rewrite Hd, _is_tool_eq. cbn.
    now rewrite Hx.
  - intros Hm. unfold rdkit, bind. rewrite Hd.
    unfold try_except, import_rdkit. run. now rewrite Hm.
  - intros He. unfold config, bind. rewrite Hd, os_path_exists_eq. cbn.
    now rewrite He.
Qed.

(** ** Running a step twice *)

(** What the gate leaves behind when tracking is enabled: the task is in
    the in-memory ledger (also when the write of the file raised), nothing
    leaves the ledger, and the trace is untouched. *)
Lemma gate_marks t ins w :
  check_install_log ins = true ->
  let st1 := snd (_is_done t (ins, w)) in
  check_install_log (fst st1) = true /\
  recorded t (fst st1) = true /\
  (forall u, recorded u ins = true -> recorded u (fst st1) = true) /\
  calls (snd st1) = calls w.
Proof.
  intros Hc st1. subst st1.
  assert (forall u, recorded u ins = true ->
                    recorded u (with_log ins (Some (record (log ins) t))) = true)
    as Hmono.
  { intros u [s [Hl Hu]]%recorded_true. apply recorded_true.
    eexists; split; [reflexivity|]. eapply record_mono; eauto. }
  destruct (_is_done_outcome t ins w) as [Hd|_ Hr|f _ Hr Hw|e _ Hr Hw];
    cbn [fst snd].
  - congruence.
  - auto.
  - split; [assumption|]. split; [apply recorded_with_log|]. now split.
  - split; [assumption|]. split; [apply recorded_with_log|]. now split.
Qed.

Lemma new_calls_app ins w ins1 w1 evs :
  calls w1 = calls w ++ evs -> new_calls (ins, w) (ins1, w1) = evs.
Proof. unfold new_calls. cbn. intros ->. apply drop_app_length. Qed.

(** The possible traces of one run of [conda], and what it leaves in the
    object. *)
Lemma conda_shape ins w :
  check_install_log ins = true ->
  exists r ins1 w1 evs,
    conda (ins, w) = (r, (ins1, w1)) /\
    check_install_log ins1 = true /\
    recorded "conda" ins1 = true /\
    (forall u, recorded u ins = true -> recorded u ins1 = true) /\
    calls w1 = calls w ++ evs /\
    (evs = [] \/ evs = [Which "conda"] \/
     evs = [Which "conda"; RunCommand "pip install -y conda"]).
Proof.
  intros Hc. pose proof (gate_marks "conda" ins w Hc) as G. cbv zeta in G.
  unfold conda, bind.
  destruct (_is_done "conda" (ins, w)) as [[[]|e] [ins1 w1]]; cbn in G;
    destruct G as (G1 & G2 & G3 & G4).
  - exists (Ok tt), ins1, w1, []. rewrite app_nil_r. auto 10.
  - rewrite _is_tool_eq.
    destruct (path_tools (machine w1) !! "conda") as [x|]; cbn.
    + exists (Ok tt), ins1, (add_call w1 (Which "conda")), [Which "conda"].
      cbn. rewrite G4. auto 10.
    + eexists (Ok tt), ins1, _, [Which "conda"; RunCommand "pip install -y conda"].
      split; [reflexivity|]. cbn. rewrite G4, <- app_assoc. auto 10.
  - exists (Raise e), ins1, w1, []. rewrite app_nil_r. auto 10.
Qed.

Lemma git_shape ins w :
  check_install_log ins = true ->
  exists r ins1 w1 evs,
    git (ins, w) = (r, (ins1, w1)) /\
    check_install_log ins1 = true /\
    recorded "git" ins1 = true /\
    calls w1 = calls w ++ evs /\
    runs "conda install -y -q git" evs <= 1.
Proof.
  intros Hc. pose proof (gate_marks "git" ins w Hc) as G. cbv zeta in G.
  unfold git, bind.
  destruct (_is_done "git" (ins, w)) as [[[]|e] [ins1 w1]]; cbn in G;
    destruct G as (G1 & G2 & G3 & G4).
  - exists (Ok tt), ins1, w1, []. rewrite app_nil_r. cbn. auto 10.
  - rewrite _is_tool_eq.
    destruct (path_tools (machine w1) !! "git") as [x|]; cbn.
    + exists (Ok tt), ins1, (add_call w1 (Which "git")), [Which "git"].
      cbn. rewrite G4. auto 10.
    + destruct (conda_shape ins1 (add_call w1 (Which "git")) G1)
        as (r & ins2 & w2 & evs & -> & C1 & _ & C3 & C4 & C5).
      destruct r as [[]|e]; cbn.
      * eexists (Ok tt), ins2, _,
          (Which "git" :: evs ++ [RunCommand "conda install -y -q git"]).
        split; [reflexivity|]. cbn in *. rewrite C4, G4, <- !app_assoc.
        repeat split; auto.
        destruct C5 as [->|[->| ->]]; vm_compute; lia.
      * exists (Raise e), ins2, w2, (Which "git" :: evs).
        cbn in *. rewrite C4, G4, <- !app_assoc.
        repeat split; auto.
        destruct C5 as [->|[->| ->]]; vm_compute; lia.
  - exists (Raise e), ins1, w1, []. rewrite app_nil_r. cbn. auto 10.
Qed.

Lemma _package_path_eq ins w :
  _package_path (ins, w)
  = match development_path ins with
    | Some _ => (Ok tt, (ins, w))
    | None =>
        (Ok tt,
         (with_development_path ins (Some candidate_dir),
          add_call
            (add_call
               (add_call w (Exists_ (OsPath.join candidate_dir "setup.py")))
               (Exists_ (OsPath.join candidate_dir "README.md")))
            (Exists_ (OsPath.join candidate_dir "CODE_OF_CONDUCT.md"))))
    end.
Proof.
  unfold _package_path, bind, get_self, ret. cbn [fst snd].
  destruct (development_path ins) eqn:Hd; [reflexivity|].
  fold candidate_dir. rewrite os_path_exists_eq.
  destruct (Fs.exists_ _ _); cbn;
    destruct (Fs.exists_ _ _); cbn;
    destruct (Fs.exists_ _ _); reflexivity.
Qed.

Lemma rdkit_shape ins w :
  check_install_log ins = true ->
  exists r ins1 w1 evs,
    rdkit (ins, w) = (r, (ins1, w1)) /\
    check_install_log ins1 = true /\
    recorded "rdkit" ins1 = true /\
    calls w1 = calls w ++ evs /\
    runs "conda install -c conda-forge -y -q rdkit" evs <= 1.
Proof.
  intros Hc. pose proof (gate_marks "rdkit" ins w Hc) as G. cbv zeta in G.
  unfold rdkit, bind.
  destruct (_is_done "rdkit" (ins, w)) as [[[]|e] [ins1 w1]]; cbn in G;
    destruct G as (G1 & G2 & G3 & G4).
  - exists (Ok tt), ins1, w1, []. rewrite app_nil_r. cbn. auto 10.
  - unfold try_except, import_rdkit. run.
    destruct (rdkit_module (machine w1)) as [|[]]; cbn;
      try solve [eexists _, ins1, _, [Import "rdkit"];
                 split; [reflexivity|]; cbn; rewrite G4; auto 10].
    eexists (Ok tt), ins1, _,
      [Import "rdkit"; RunCommand "conda install -c conda-forge -y -q rdkit"].
    split; [reflexivity|]. cbn. rewrite G4, <- app_assoc. auto 10.
  - exists (Raise e), ins1, w1, []. rewrite app_nil_r. cbn. auto 10.
Qed.

Lemma config_shape ins w :
  check_install_log ins = true ->
  exists r ins1 w1,
    config (ins, w) = (r, (ins1, w1)) /\
    check_install_log ins1 = true /\
    recorded "config" ins1 = true.
Proof.
  intros Hc. pose proof (gate_marks "config" ins w Hc) as G. cbv zeta in G.
  unfold config, bind.
  destruct (_is_done "config" (ins, w)) as [[[]|e] [ins1 w1]]; cbn in G;
    destruct G as (G1 & G2 & _ & _); [eauto 10| |eauto 10].
  rewrite os_path_exists_eq.
  destruct (Fs.exists_ _ _); [eauto 10|].
  unfold fs_op at 1. cbn [fst snd].
  destruct (Fs.makedirs _ _) as [f|e]; [|eauto 10].
  rewrite _package_path_eq.
  destruct (development_path ins1) as [d|] eqn:Hd; unfold get_self;
    cbn [fst snd development_path with_development_path]; try rewrite Hd;
    unfold fs_op; cbn [fst snd];
    destruct (Fs.copyfile _ _ _); eauto 10.
Qed.

(** C2: with tracking enabled, a second invocation of the same step on the
    same object finds its task recorded by the first one (also when the
    first one raised) and returns leaving the object and the world as they
    are: no probe, no action, no write; over the two invocations the command
    of the step runs at most once. *)
Theorem C2_second_invocation_is_silent ins w :
  check_install_log ins = true ->
  (forall t, let st1 := snd (_is_done t (ins, w)) in
             _is_done t st1 = (Ok true, st1)) /\
  (let st1 := snd (conda (ins, w)) in
   let st2 := snd (conda st1) in
   conda st1 = (Ok tt, st1) /\
   runs "pip install -y conda" (new_calls (ins, w) st2) <= 1) /\
  (let st1 := snd (git (ins, w)) in
   let st2 := snd (git st1) in
   git st1 = (Ok tt, st1) /\
   runs "conda install -y -q git" (new_calls (ins, w) st2) <= 1) /\
  (let st1 := snd (rdkit (ins, w)) in
   let st2 := snd (rdkit st1) in
   rdkit st1 = (Ok tt, st1) /\
   runs "conda install -c conda-forge -y -q rdkit" (new_calls (ins, w) st2) <= 1) /\
  (let st1 := snd (config (ins, w)) in
   config st1 = (Ok tt, st1)).
Proof.
  intros Hc. split; [|split; [|split; [|split]]]; cbv zeta.
  - intros t. pose proof (gate_marks t ins w Hc) as (G1 & G2 & _).
    destruct (snd (_is_done t (ins, w))) as [ins1 w1].
    now apply _is_done_recorded.
  - destruct (conda_shape ins w Hc)
      as (r & ins1 & w1 & evs & -> & C1 & C2 & _ & C4 & C5). cbn [snd].
    assert (conda (ins1, w1) = (Ok tt, (ins1, w1))) as ->.
    { unfold conda, bind. now rewrite _is_done_recorded. }
    split; [reflexivity|]. cbn [snd].
    rewrite (new_calls_app _ _ _ _ _ C4).
    destruct C5 as [->|[->| ->]]; vm_compute; lia.
  - destruct (git_shape ins w Hc)
      as (r & ins1 & w1 & evs & -> & C1 & C2 & C4 & C5). cbn [snd].
    assert (git (ins1, w1) = (Ok tt, (ins1, w1))) as ->.
    { unfold git, bind. now rewrite _is_done_recorded. }
    split; [reflexivity|]. cbn [snd].
    now rewrite (new_calls_app _ _ _ _ _ C4).
  - destruct (rdkit_shape ins w Hc)
      as (r & ins1 & w1 & evs & -> & C1 & C2 & C4 & C5). cbn [snd].
    assert (rdkit (ins1, w1) = (Ok tt, (ins1, w1))) as ->.
    { unfold rdkit, bind. now rewrite _is_done_recorded. }
    split; [reflexivity|]. cbn [snd].
    now rewrite (new_calls_app _ _ _ _ _ C4).
  - destruct (config_shape ins w Hc) as (r & ins1 & w1 & -> & C1 & C2).
    cbn [snd]. unfold config, bind. now rewrite _is_done_recorded.
Qed.

(** ** Development path and the [config] step *)

Lemma _is_done_calls t ins w :
  calls (snd (snd (_is_done t (ins, w)))) = calls w.
Proof. destruct (_is_done_outcome t ins w); reflexivity. Qed.

Lemma fs_op_eq op ins w :
  fs_op op (ins, w)
  = match op (fs (machine w)) with
    | Ok f => (Ok tt, (ins, with_machine w (with_fs (machine w) f)))
    | Raise e => (Raise e, (ins, w))
    end.
Proof. reflexivity. Qed.

Lemma _package_path_sets ins w :
  fst (_package_path (ins, w)) = Ok tt /\
  development_path (fst (snd (_package_path (ins, w)))) <> None.
Proof.
  rewrite _package_path_eq.
  destruct (development_path ins) eqn:Hd; cbn; [|easy].
  split; [reflexivity|]. now rewrite Hd.
Qed.

Lemma config_trace ins w :
  exists evs,
    calls (snd (snd (config (ins, w)))) = calls w ++ evs /\
    forallb (fun e => negb (is_download e)) evs = true.
Proof.
  pose proof (_is_done_calls "config" ins w) as G.
  unfold config, bind.
  destruct (_is_done "config" (ins, w)) as [[[]|e] [ins1 w1]]; cbn in G;
    try (exists []; rewrite app_nil_r; now split).
  rewrite os_path_exists_eq.
  destruct (Fs.exists_ _ _);
    [eexists [_]; cbn; rewrite G; now split|].
  unfold fs_op at 1. cbn [fst snd].
  destruct (Fs.makedirs _ _) as [f|e];
    [|eexists [_]; cbn; rewrite G; now split].
  rewrite _package_path_eq.
  destruct (development_path ins1) as [d|] eqn:Hd; unfold get_self;
    cbn [fst snd development_path with_development_path]; try rewrite Hd;
    unfold fs_op; cbn [fst snd];
    destruct (Fs.copyfile _ _ _); cbn; rewrite G.
  1-2: eexists [_]; now split.
  1-2: eexists [_; _; _; _]; rewrite <- !app_assoc; now split.
Qed.

(** C10: [_package_path] always leaves a development path, so [config]
    never reaches its download branch: no run of [config] emits a download,
    a run that reaches the action is a [shutil.copyfile] from the
    development tree, and it raises FileNotFoundError when the file is
    missing there. *)
Theorem C10_config_never_downloads ins w :
  (fst (_package_path (ins, w)) = Ok tt /\
   development_path (fst (snd (_package_path (ins, w)))) <> None) /\
  Forall (fun e => is_download e = false)
    (new_calls (ins, w) (snd (config (ins, w)))) /\
  (forall ins1 w1 f,
     _is_done "config" (ins, w) = (Ok false, (ins1, w1)) ->
     Fs.exists_ (fs (machine w1)) (OsPath.join EOS CONFIG_JSON) = false ->
     Fs.makedirs (fs (machine w1)) EOS = Ok f ->
     let w2 := add_call w1 (Exists_ (OsPath.join EOS CONFIG_JSON)) in
     let st3 := snd (_package_path
                       (ins1, with_machine w2 (with_fs (machine w2) f))) in
     let d := from_option id candidate_dir (development_path ins1) in
     development_path (fst st3) = Some d /\
     fs (machine (snd st3)) = f /\
     config (ins, w)
     = fs_op (fun f => Fs.copyfile f (OsPath.join d CONFIG_JSON)
                         (OsPath.join EOS CONFIG_JSON)) st3 /\
     (forall q, Fs.locate f (OsPath.join d CONFIG_JSON) = Fs.Missing q ->
                fst (config (ins, w)) = Raise FileNotFoundError)).
Proof.
  split; [apply _package_path_sets|]. split.
  - destruct (config_trace ins w) as (evs & Hc & He).
    destruct (config (ins, w)) as [r [ins1 w1]]. cbn [snd] in *.
    rewrite (new_calls_app _ _ _ _ _ Hc).
    apply Forall_forall. intros e Hin.
    rewrite forallb_forall in He. apply negb_true_iff, He.
    now apply list_elem_of_In.
  - intros ins1 w1 f Hd He Hm w2 st3 d.
    assert (config (ins, w)
            = fs_op (fun f => Fs.copyfile f (OsPath.join d CONFIG_JSON)
                                (OsPath.join EOS CONFIG_JSON)) st3
            /\ development_path (fst st3) = Some d
            /\ fs (machine (snd st3)) = f) as (Hcfg & Hdev & Hfs).
    { subst st3 d. unfold config, bind. rewrite Hd, os_path_exists_eq.
      cbn [fst snd]. rewrite He, (fs_op_eq (fun f => Fs.makedirs f EOS)).
      cbn [add_call machine]. rewrite Hm. fold w2. rewrite !_package_path_eq.
      destruct (development_path ins1) as [d|] eqn:Hp; unfold get_self;
        cbn [fst snd development_path with_development_path from_option id];
        try rewrite Hp; repeat split; reflexivity. }
    split; [exact Hdev|]. split; [exact Hfs|]. split; [exact Hcfg|].
    intros q Hq. rewrite Hcfg.
    unfold fs_op, Fs.copyfile, Fs.samefile, Fs.read.
    rewrite Hfs, Hq. reflexivity.
Qed.

(** ** Reading the ledger back *)

Lemma write_log_eq ins w :
  write_log (ins, w)
  = match log ins with
    | None => (Ok tt, (ins, w))
    | Some s =>
        match Fs.write (fs (machine w)) (log_file ins) (ledger_text s) with
        | Ok f => (Ok tt, (ins, with_machine w (with_fs (machine w) f)))
        | Raise e => (Raise e, (ins, w))
        end
    end.
Proof.
  unfold write_log, bind, get_self, ret. cbn [fst snd].
  now destruct (log ins).
Qed.

Lemma read_log_eq ins w :
  read_log (ins, w)
  = let w1 := add_call w (Exists_ (log_file ins)) in
    if Fs.exists_ (fs (machine w)) (log_file ins) then
      match Fs.read (fs (machine w)) (log_file ins) with
      | Ok c => (Ok tt, (with_log ins (Some (list_to_set (ledger_lines c))), w1))
      | Raise e => (Raise e, (ins, w1))
      end
    else (Ok tt, (ins, w1)).
Proof.
  unfold read_log, bind, get_self. cbn [fst snd]. rewrite os_path_exists_eq.
  cbv zeta. destruct (Fs.exists_ _ _); cbn [negb]; [|reflexivity].
  unfold open_read, bind, get_machine, ret, raise, set_log.
  cbn [fst snd add_call machine].
  now destruct (Fs.read _ _).
Qed.

Lemma read_ok_exists (f : gmap string node) p c :
  Fs.read f p = Ok c -> Fs.exists_ f p = true.
Proof.
  unfold Fs.read, Fs.exists_.
  destruct (Fs.locate f p) as [q [[] ?| |t]|q|]; now intros.
Qed.

(** C4 (amended): for a ledger [s] whose names hold no line terminator and
    end in no whitespace, once [write_log] has written the file, [read_log]
    on an object with the same ledger file (whatever its ledger was) yields
    exactly [s]. *)
Theorem C4_ledger_round_trip ins ins2 w s st1 :
  log ins = Some s ->
  (forall t, t ∈ s -> newline_free t = true /\ Py.rstrip t = t) ->
  write_log (ins, w) = (Ok tt, st1) ->
  log_file ins2 = log_file ins ->
  read_log (ins2, snd st1)
  = (Ok tt, (with_log ins2 (Some s),
             add_call (snd st1) (Exists_ (log_file ins)))).
Proof.
  intros Hl Hs Hw Hf. rewrite write_log_eq, Hl in Hw.
  destruct (Fs.write _ _ _) as [f|e] eqn:Hwr; [|discriminate].
  injection Hw as <-. cbn [snd].
  apply write_then_read in Hwr as [Hrd Hex].
  rewrite read_log_eq, Hf. cbn [with_machine machine with_fs fs].
  rewrite Hex, Hrd. cbv zeta.
  now rewrite ledger_lines_ledger_text.
Qed.

(** C5 (amended): [read_log] guards only against a ledger file that does
    not exist: then the ledger of the object is left as it was and the call
    returns. When the file exists and opening it raises, the exception
    reaches the caller and the ledger is left as it was; when it can be
    read, the ledger becomes the set of its stripped lines. *)
Theorem C5_read_log_propagates_io_errors ins w :
  let p := log_file ins in
  let w1 := add_call w (Exists_ p) in
  (Fs.exists_ (fs (machine w)) p = false ->
   read_log (ins, w) = (Ok tt, (ins, w1))) /\
  (forall e, Fs.exists_ (fs (machine w)) p = true ->
             Fs.read (fs (machine w)) p = Raise e ->
             read_log (ins, w) = (Raise e, (ins, w1))) /\
  (forall c, Fs.read (fs (machine w)) p = Ok c ->
             read_log (ins, w)
             = (Ok tt, (with_log ins (Some (list_to_set (ledger_lines c))), w1))).
Proof.
  cbv zeta. rewrite read_log_eq. cbv zeta. split; [|split].
  - now intros ->.
  - now intros e -> ->.
  - intros c Hc. now rewrite (read_ok_exists _ _ _ Hc), Hc.
Qed.

(** ** Order of the steps in [git] *)

Lemma run_command_eq cmd ins w :
  run_command cmd (ins, w)
  = (Ok tt, (ins, add_call (with_machine w (run_command_effect cmd (machine w)))
                    (RunCommand cmd))).
Proof. reflexivity. Qed.

Lemma conda_leaves_mark ins w : conda_mark (ins, w) (snd (conda (ins, w))).
Proof.
  destruct (check_install_log ins) eqn:Hc.
  - destruct (conda_shape ins w Hc) as (r & ins1 & w1 & evs & -> & _ & C2 & _).
    now left.
  - right. unfold conda, bind.
    rewrite _is_done_disabled, _is_tool_eq by assumption. unfold new_calls.
    destruct (path_tools (machine w) !! "conda"); cbn;
      rewrite <- ?app_assoc, drop_app_length; set_solve.
Qed.

Lemma conda_calls_extend ins w :
  exists evs, calls (snd (snd (conda (ins, w)))) = calls w ++ evs.
Proof.
  pose proof (_is_done_calls "conda" ins w) as G. unfold conda, bind.
  destruct (_is_done "conda" (ins, w)) as [[[]|e] [ins1 w1]]; cbn in G;
    try (exists []; now rewrite app_nil_r).
  rewrite _is_tool_eq. destruct (path_tools (machine w1) !! "conda"); cbn;
    rewrite G, <- ?app_assoc; eauto.
Qed.

(** C6 (amended): past its ledger gate, [git] first probes for the git
    tool. When the tool is found, [git] returns with that probe as its only
    event and the [conda] step is not invoked. When the tool is not found,
    [git] invokes the [conda] step and then runs its own install command,
    so the [conda] step leaves its mark before git is installed. *)
Theorem C6_git_invokes_conda_after_its_probe ins w ins1 w1 :
  _is_done "git" (ins, w) = (Ok false, (ins1, w1)) ->
  let w2 := add_call w1 (Which "git") in
  (is_Some (path_tools (machine w1) !! "git") ->
   git (ins, w) = (Ok tt, (ins1, w2))) /\
  (path_tools (machine w1) !! "git" = None ->
   git (ins, w) = (conda ;;; run_command "conda install -y -q git") (ins1, w2) /\
   conda_mark (ins1, w2) (snd (git (ins, w)))).
Proof.
  intros Hd w2. split.
  - intros [x Hx]. unfold git, bind. rewrite Hd, _is_tool_eq. cbn.
    now rewrite Hx.
  - intros Hx.
    assert (git (ins, w)
            = (conda ;;; run_command "conda install -y -q git") (ins1, w2)) as ->.
    { unfold git at 1, bind at 1 2. rewrite Hd, _is_tool_eq. cbn iota.
      now rewrite Hx. }
    split; [reflexivity|].
    pose proof (conda_leaves_mark ins1 w2) as Hm.
    destruct (conda_calls_extend ins1 w2) as (evs & Hev).
    unfold bind. destruct (conda (ins1, w2)) as [[[]|e] [ins3 w3]];
      [|exact Hm].
    rewrite run_command_eq. cbn [snd fst] in *.
    destruct Hm as [Hm|Hm]; [now left|right].
    unfold new_calls in *. cbn [snd fst add_call with_machine calls] in *.
    rewrite Hev in *. rewrite <- app_assoc, drop_app_length.
    rewrite drop_app_length in Hm. set_solve.
Qed.

(** ** The import probe of [rdkit] *)

(** C8: past its ledger gate, [rdkit] imports the module once. A
    ModuleNotFoundError is taken as "absent" and the step goes on to run
    the install command; any other exception of the import leaves [rdkit]
    as it was raised, and nothing is installed. *)
Theorem C8_only_module_not_found_is_absent ins w ins1 w1 :
  _is_done "rdkit" (ins, w) = (Ok false, (ins1, w1)) ->
  let w2 := add_call w1 (Import "rdkit") in
  match rdkit_module (machine w1) with
  | Imported => rdkit (ins, w) = (Ok tt, (ins1, w2))
  | ImportRaises ModuleNotFoundError =>
      rdkit (ins, w)
      = run_command "conda install -c conda-forge -y -q rdkit" (ins1, w2)
  | ImportRaises e => rdkit (ins, w) = (Raise e, (ins1, w2))
  end.
Proof.
  intros Hd w2. unfold rdkit, bind. rewrite Hd.
  unfold try_except, import_rdkit. run.
  destruct (rdkit_module (machine w1)) as [|[]]; reflexivity.
Qed.

(** ** The resolver [_config] *)

(** With the destination absent and the file present in the development
    tree, [_config] links the destination to the file of the tree and asks
    nothing of the remote host. *)
Lemma _config_links ins w d :
  let dst := OsPath.join EOS CONFIG_JSON in
  let src := OsPath.join d CONFIG_JSON in
  fs (machine w) !! dst = None ->
  development_path ins = Some d ->
  Fs.exists_ (fs (machine w)) src = true ->
  _config (ins, w)
  = (Ok tt,
     (ins,
      with_machine (add_call (add_call w (Exists_ dst)) (Exists_ src))
        (with_fs (machine w) (<[dst := Symlink src]> (fs (machine w)))))).
Proof.
  intros dst src Hdst Hd Hsrc. subst dst src. unfold _config. cbv zeta.
  unfold bind. rewrite os_path_exists_eq.
  assert (Fs.exists_ (fs (machine w)) (OsPath.join EOS CONFIG_JSON) = false)
    as ->.
  { unfold Fs.exists_, Fs.locate, Fs.MAXSYMLINKS. cbn. now rewrite Hdst. }
  rewrite _package_path_eq, Hd. unfold get_self. cbn [fst snd]. rewrite Hd.
  rewrite os_path_exists_eq. cbn [add_call machine]. rewrite Hsrc.
  unfold ret. cbn [fst snd]. rewrite fs_op_eq. cbn [add_call machine].
  unfold Fs.symlink. now rewrite Hdst.
Qed.

(** * Further properties of the ledger *)

(** ** Lines of a file *)

Lemma file_lines_cons_nonempty c s : Py.file_lines (String c s) <> [].
Proof.
  cbn [Py.file_lines].
  destruct (Ascii.eqb c Py.LF); [discriminate|].
  destruct (Ascii.eqb c Py.CR).
  - destruct s as [|c' s']; [discriminate|].
    destruct (Ascii.eqb c' Py.LF); discriminate.
  - destruct (Py.file_lines s); discriminate.
Qed.

Lemma file_lines_cons_eq c r :
  Py.file_lines (String c r)
  = if Ascii.eqb c Py.LF then String Py.LF EmptyString :: Py.file_lines r
    else if Ascii.eqb c Py.CR then
      match r with
      | String c' r' =>
          if Ascii.eqb c' Py.LF then String Py.LF EmptyString :: Py.file_lines r'
          else String Py.LF EmptyString :: Py.file_lines r
      | EmptyString => [String Py.LF EmptyString]
      end
    else
      match Py.file_lines r with
      | [] => [String c EmptyString]
      | l :: ls => String c l :: ls
      end.
Proof. reflexivity. Qed.

(** A line terminator ends the line: what follows it is cut on its own. *)
Lemma file_lines_after_terminator x rest :
  Py.file_lines ((x +:+ String Py.LF EmptyString) +:+ rest)
  = Py.file_lines (x +:+ String Py.LF EmptyString) ++ Py.file_lines rest.
Proof.
  enough (forall y,
    (Py.file_lines ((y +:+ String Py.LF EmptyString) +:+ rest)
     = Py.file_lines (y +:+ String Py.LF EmptyString) ++ Py.file_lines rest) /\
    (forall c,
       Py.file_lines ((String c y +:+ String Py.LF EmptyString) +:+ rest)
       = Py.file_lines (String c y +:+ String Py.LF EmptyString)
         ++ Py.file_lines rest)) as H by apply H.
  induction y as [|a y [IH0 IH1]].
  - split; [reflexivity|]. intros c. rewrite !append_cons.
    cbn [Py.file_lines String.append].
    destruct (Ascii.eqb c Py.LF); [reflexivity|].
    destruct (Ascii.eqb c Py.CR); reflexivity.
  - split; [apply IH1|]. intros c.
    specialize (IH1 a).
    pose proof (file_lines_cons_nonempty a (y +:+ String Py.LF EmptyString))
      as Hne.
    change ((String c (String a y) +:+ String Py.LF EmptyString) +:+ rest)
      with (String c (String a ((y +:+ String Py.LF EmptyString) +:+ rest))).
    change (String c (String a y) +:+ String Py.LF EmptyString)
      with (String c (String a (y +:+ String Py.LF EmptyString))).
    change ((String a y +:+ String Py.LF EmptyString) +:+ rest)
      with (String a ((y +:+ String Py.LF EmptyString) +:+ rest)) in IH1.
    change (String a y +:+ String Py.LF EmptyString)
      with (String a (y +:+ String Py.LF EmptyString)) in IH1.
    set (u := (y +:+ String Py.LF EmptyString) +:+ rest) in *.
    set (v := y +:+ String Py.LF EmptyString) in *.
    rewrite (file_lines_cons_eq c (String a u)), (file_lines_cons_eq c (String a v)).
    destruct (Ascii.eqb c Py.LF); [now rewrite IH1|].
    destruct (Ascii.eqb c Py.CR).
    { destruct (Ascii.eqb a Py.LF); [now rewrite IH0|now rewrite IH1]. }
    rewrite IH1.
    destruct (Py.file_lines (String a v)); [contradiction|reflexivity].
Qed.

Lemma ledger_lines_eq content :
  ledger_lines content = map Py.rstrip (Py.file_lines content).
Proof. unfold ledger_lines. now rewrite foldl_snoc_map. Qed.

(** A clean name written among any other names is read back. *)
Lemma written_name_is_read t xs :
  newline_free t = true -> Py.rstrip t = t -> t ∈ xs ->
  t ∈ ledger_lines (Py.write_lines xs).
Proof.
  intros Hnl Hrs. rewrite ledger_lines_eq.
  induction xs as [|l xs IH]; intros Hin; [now apply elem_of_nil in Hin|].
  cbn [Py.write_lines].
  apply elem_of_cons in Hin as [<-|Hin].
  - rewrite file_lines_terminated by assumption. cbn [map].
    rewrite rstrip_terminated, Hrs. apply elem_of_cons. now left.
  - rewrite file_lines_after_terminator, map_app.
    apply elem_of_app. right. auto.
Qed.

Lemma recorded_name_is_read t (s : gset string) :
  newline_free t = true -> Py.rstrip t = t -> t ∈ s ->
  t ∈ (list_to_set (ledger_lines (ledger_text s)) : gset string).
Proof.
  intros Hnl Hrs Hin. apply elem_of_list_to_set.
  apply written_name_is_read; try assumption.
  unfold Py.sorted. rewrite merge_sort_Permutation.
  now apply elem_of_elements.
Qed.

(** ** A restart finds what the gate recorded *)

(** X1: once the gate of one object has recorded a task whose name holds no
    line terminator and ends in no whitespace, another object with the same
    ledger file that loads the ledger finds the task recorded, whatever
    else the ledger holds: its gate answers true and changes nothing. *)
Theorem X1_recorded_task_survives_restart t ins ins2 w f :
  check_install_log ins = true ->
  recorded t ins = false ->
  Fs.write (fs (machine w)) (log_file ins) (ledger_text (record (log ins) t)) = Ok f ->
  newline_free t = true ->
  Py.rstrip t = t ->
  log_file ins2 = log_file ins ->
  check_install_log ins2 = true ->
  let st1 := snd (_is_done t (ins, w)) in
  let st2 := snd (read_log (ins2, snd st1)) in
  fst (read_log (ins2, snd st1)) = Ok tt /\
  recorded t (fst st2) = true /\
  _is_done t st2 = (Ok true, st2).
Proof.
  intros Hc Hr Hw Hnl Hrs Hf Hc2 st1 st2. subst st2 st1.
  rewrite (_is_done_fresh t ins w f Hc Hr Hw). cbn [snd].
  apply write_then_read in Hw as [Hrd Hex].
  rewrite read_log_eq, Hf. cbn [with_machine machine with_fs fs].
  rewrite Hex, Hrd. cbv zeta. cbn [fst snd].
  assert (recorded t
            (with_log ins2
               (Some (list_to_set
                        (ledger_lines (ledger_text (record (log ins) t))))))
          = true) as Hrec.
  { apply recorded_true. eexists. split; [reflexivity|].
    apply recorded_name_is_read; auto using elem_of_record. }
  split; [reflexivity|]. split; [exact Hrec|].
  now apply _is_done_recorded.
Qed.

(** ** Tracking disabled *)

(** X2: with tracking disabled the gate answers false and touches nothing,
    whatever the ledger holds; [conda] and [rdkit] then probe on every
    invocation and run their command whenever the probe is negative, and
    the object is never changed. *)
Theorem X2_tracking_disabled_always_probes t ins w :
  check_install_log ins = false ->
  _is_done t (ins, w) = (Ok false, (ins, w)) /\
  conda (ins, w)
  = (let w1 := add_call w (Which "conda") in
     match path_tools (machine w) !! "conda" with
     | Some _ => (Ok tt, (ins, w1))
     | None => run_command "pip install -y conda" (ins, w1)
     end) /\
  rdkit (ins, w)
  = (let w1 := add_call w (Import "rdkit") in
     match rdkit_module (machine w) with
     | Imported => (Ok tt, (ins, w1))
     | ImportRaises ModuleNotFoundError =>
         run_command "conda install -c conda-forge -y -q rdkit" (ins, w1)
     | ImportRaises e => (Raise e, (ins, w1))
     end) /\
  fst (snd (conda (ins, w))) = ins /\
  fst (snd (rdkit (ins, w))) = ins.
Proof.
  intros Hc.
  assert (forall u, _is_done u (ins, w) = (Ok false, (ins, w))) as Hd
    by (intros u; now apply _is_done_disabled).
  assert (conda (ins, w)
          = (let w1 := add_call w (Which "conda") in
             match path_tools (machine w) !! "conda" with
             | Some _ => (Ok tt, (ins, w1))
             | None => run_command "pip install -y conda" (ins, w1)
             end)) as Hconda.
  { unfold conda, bind. rewrite Hd, _is_tool_eq. cbv zeta.
    now destruct (path_tools (machine w) !! "conda"). }
  assert (rdkit (ins, w)
          = (let w1 := add_call w (Import "rdkit") in
             match rdkit_module (machine w) with
             | Imported => (Ok tt, (ins, w1))
             | ImportRaises ModuleNotFoundError =>
                 run_command "conda install -c conda-forge -y -q rdkit" (ins, w1)
             | ImportRaises e => (Raise e, (ins, w1))
             end)) as Hrdkit.
  { unfold rdkit, bind. rewrite Hd. unfold try_except, import_rdkit. run.
    destruct (rdkit_module (machine w)) as [|[]]; reflexivity. }
  split; [apply Hd|]. split; [exact Hconda|]. split; [exact Hrdkit|]. split.
  - rewrite Hconda. cbv zeta.
    now destruct (path_tools (machine w) !! "conda").
  - rewrite Hrdkit. cbv zeta.
    destruct (rdkit_module (machine w)) as [|[]]; reflexivity.
Qed.

(** ** Format of the ledger file *)

(** X4: the file [write_log] leaves holds one name per line, each line
    ended by a line feed, in ascending order and without repetition, and
    its lines are exactly the names of the in-memory ledger: the file is
    rewritten whole, what it held before plays no part. *)
Theorem X4_ledger_file_is_sorted ins w s st1 :
  log ins = Some s ->
  write_log (ins, w) = (Ok tt, st1) ->
  exists xs,
    Fs.read (fs (machine (snd st1))) (log_file ins) = Ok (Py.write_lines xs) /\
    StronglySorted String.le xs /\
    NoDup xs /\
    (forall t, t ∈ xs <-> t ∈ s).
Proof.
  intros Hl Hw. rewrite write_log_eq, Hl in Hw.
  destruct (Fs.write _ _ _) as [f|e] eqn:Hwr; [|discriminate].
  injection Hw as <-. cbn [snd with_machine machine with_fs fs].
  apply write_then_read in Hwr as [Hrd _].
  exists (Py.sorted (elements s)). split; [exact Hrd|].
  unfold Py.sorted. split; [|split].
  - apply StronglySorted_merge_sort; apply _.
  - rewrite merge_sort_Permutation. apply NoDup_elements.
  - intros t. rewrite merge_sort_Permutation. apply elem_of_elements.
Qed.

(** ** Loaded names *)

Lemma rstrip_cons c s :
  Py.rstrip (String c s)
  = match Py.rstrip s with
    | EmptyString => if Py.isspace c then EmptyString else String c EmptyString
    | String a r => String c (String a r)
    end.
Proof. cbn [Py.rstrip]. now destruct (Py.rstrip s). Qed.

Lemma rstrip_idempotent s : Py.rstrip (Py.rstrip s) = Py.rstrip s.
Proof.
  induction s as [|c s IH]; [reflexivity|].
  rewrite rstrip_cons.
  destruct (Py.rstrip s) as [|a r] eqn:Hr.
  - destruct (Py.isspace c) eqn:Hc; [reflexivity|].
    rewrite rstrip_cons. cbn [Py.rstrip]. now rewrite Hc.
  - rewrite rstrip_cons, IH. reflexivity.
Qed.

Lemma file_lines_delivered s :
  Forall (fun l => delivered_line l = true) (Py.file_lines s).
Proof.
  enough (forall y,
    Forall (fun l => delivered_line l = true) (Py.file_lines y) /\
    (forall c, Forall (fun l => delivered_line l = true)
                 (Py.file_lines (String c y)))) as H by apply H.
  induction y as [|a y [IH0 IH1]].
  - split; [constructor|]. intros c. rewrite file_lines_cons_eq.
    destruct (Ascii.eqb c Py.LF) eqn:Hlf; [now repeat constructor|].
    destruct (Ascii.eqb c Py.CR) eqn:Hcr; [now repeat constructor|].
    cbn [Py.file_lines]. repeat constructor. cbn. now rewrite Hlf, Hcr.
  - split; [apply IH1|]. intros c. rewrite file_lines_cons_eq.
    destruct (Ascii.eqb c Py.LF) eqn:Hlf.
    { constructor; [reflexivity|apply IH1]. }
    destruct (Ascii.eqb c Py.CR) eqn:Hcr.
    { destruct (Ascii.eqb a Py.LF); constructor;
        (reflexivity || apply IH0 || apply IH1). }
    specialize (IH1 a).
    destruct (Py.file_lines (String a y)) as [|l ls].
    + repeat constructor. cbn. now rewrite Hlf, Hcr.
    + inversion IH1 as [|? ? Hl Hls]; subst. constructor; [|assumption].
      cbn [delivered_line]. now rewrite Hlf, Hcr.
Qed.

Lemma rstrip_delivered l :
  delivered_line l = true -> newline_free (Py.rstrip l) = true.
Proof.
  induction l as [|c l IH]; [reflexivity|].
  cbn [delivered_line Py.rstrip].
  destruct (Ascii.eqb c Py.LF) eqn:Hlf.
  - destruct l; [|discriminate]. intros _.
    apply Ascii.eqb_eq in Hlf. subst c. reflexivity.
  - intros [Hcr Hl]%andb_prop. specialize (IH Hl).
    destruct (Py.rstrip l) as [|a r].
    + destruct (Py.isspace c); [reflexivity|].
      cbn [newline_free]. now rewrite Hlf, Hcr.
    + cbn [newline_free] in IH |- *. now rewrite Hlf, Hcr, IH.
Qed.

(** X8: every name of a ledger that [read_log] has loaded holds no line
    terminator and ends in no whitespace, whatever the file holds; a task
    whose name is not of that form is never found recorded after a
    load. *)
Theorem X8_loaded_names_are_stripped ins w c :
  Fs.read (fs (machine w)) (log_file ins) = Ok c ->
  exists s,
    log (fst (snd (read_log (ins, w)))) = Some s /\
    (forall t, t ∈ s -> newline_free t = true /\ Py.rstrip t = t) /\
    (forall t, Py.rstrip t <> t -> recorded t (fst (snd (read_log (ins, w)))) = false).
Proof.
  intros Hrd. rewrite read_log_eq, (read_ok_exists _ _ _ Hrd), Hrd. cbv zeta.
  cbn [fst snd]. eexists. split; [reflexivity|].
  assert (forall t,
    t ∈ (list_to_set (ledger_lines c) : gset string) ->
    newline_free t = true /\ Py.rstrip t = t) as Hclean.
  { intros t Ht. apply elem_of_list_to_set in Ht.
    rewrite ledger_lines_eq in Ht.
    apply list_elem_of_fmap in Ht as (l & -> & Hl).
    pose proof (file_lines_delivered c) as Hd.
    rewrite Forall_forall in Hd.
    split; [apply rstrip_delivered; auto|apply rstrip_idempotent]. }
  split; [exact Hclean|].
  intros t Ht. unfold recorded. cbn [log with_log].
  apply bool_decide_eq_false. intros Hin. now apply Hclean in Hin.
Qed.

(** ** Removing the ledger file *)

Lemma remove_log_eq ins w :
  remove_log (ins, w)
  = let w1 := add_call w (Exists_ (log_file ins)) in
    if Fs.exists_ (fs (machine w)) (log_file ins) then
      match Fs.remove (fs (machine w)) (log_file ins) with
      | Ok f => (Ok tt, (ins, with_machine w1 (with_fs (machine w) f)))
      | Raise e => (Raise e, (ins, w1))
      end
    else (Ok tt, (ins, w1)).
Proof.
  unfold remove_log, bind, get_self. cbn [fst snd]. rewrite os_path_exists_eq.
  cbv zeta. destruct (Fs.exists_ _ _); cbn [when]; [|reflexivity].
  rewrite fs_op_eq. cbn [add_call machine].
  now destruct (Fs.remove _ _).
Qed.

Lemma exists_at_entry (f : gmap string node) p perm c :
  f !! p = Some (File perm c) -> Fs.exists_ f p = true.
Proof.
  intros H. unfold Fs.exists_, Fs.locate, Fs.MAXSYMLINKS. cbn. now rewrite H.
Qed.

Lemma locate_absent (f : gmap string node) p :
  f !! p = None -> Fs.locate f p = Fs.Missing p.
Proof.
  intros H. unfold Fs.locate, Fs.MAXSYMLINKS. cbn. now rewrite H.
Qed.

Lemma self_link_loops n (f : gmap string node) p :
  f !! p = Some (Symlink p) -> Fs.resolve n f p = Fs.Loop.
Proof.
  intros H. induction n as [|n IH]; cbn [Fs.resolve]; rewrite H; auto.
Qed.

(** X5: on a ledger file that is a regular file, [remove_log] deletes the
    file and nothing else: an object that loads the ledger afterwards gets
    none, while the object at hand keeps its in-memory ledger, still skips
    what it holds, and with its next record writes the file anew with every
    name it holds. *)
Theorem X5_remove_log_clears_only_the_file ins w perm c :
  fs (machine w) !! log_file ins = Some (File perm c) ->
  let f' := delete (log_file ins) (fs (machine w)) in
  let w1 := with_machine (add_call w (Exists_ (log_file ins)))
              (with_fs (machine w) f') in
  remove_log (ins, w) = (Ok tt, (ins, w1)) /\
  (forall ins2, log_file ins2 = log_file ins ->
     read_log (ins2, w1)
     = (Ok tt, (ins2, add_call w1 (Exists_ (log_file ins))))) /\
  (forall t, check_install_log ins = true -> recorded t ins = true ->
     _is_done t (ins, w1) = (Ok true, (ins, w1))) /\
  (forall u, check_install_log ins = true -> recorded u ins = false ->
     exists f2,
       _is_done u (ins, w1)
       = (Ok false, (with_log ins (Some (record (log ins) u)),
                     with_machine w1 (with_fs (machine w1) f2))) /\
       Fs.read f2 (log_file ins) = Ok (ledger_text (record (log ins) u))).
Proof.
  intros Hp f' w1.
  assert (f' !! log_file ins = None) as Hgone by apply lookup_delete_eq.
  assert (Fs.exists_ f' (log_file ins) = false) as Hex.
  { unfold Fs.exists_. now rewrite locate_absent. }
  split; [|split; [|split]].
  - rewrite remove_log_eq, (exists_at_entry _ _ _ _ Hp). cbv zeta.
    unfold Fs.remove. now rewrite Hp.
  - intros ins2 Hf. rewrite read_log_eq, Hf. cbv zeta.
    cbn [w1 with_machine machine with_fs fs]. now rewrite Hex.
  - intros t Hc Hr. now apply _is_done_recorded.
  - intros u Hc Hr.
    exists (<[log_file ins := File true (ledger_text (record (log ins) u))]> f').
    assert (Fs.write f' (log_file ins) (ledger_text (record (log ins) u))
            = Ok (<[log_file ins := File true (ledger_text (record (log ins) u))]> f'))
      as Hw.
    { unfold Fs.write. now rewrite locate_absent. }
    split.
    + now apply _is_done_fresh.
    + now apply write_then_read in Hw as [-> _].
Qed.

(** X6: [remove_log] at the edges. When [os.path.exists] answers False
    (no entry, or a link that leads nowhere) nothing is removed; when the
    ledger path is a directory the removal raises IsADirectoryError; when
    it is a link to an existing entry the link goes and the entry stays.
    In every case the object is left as it was. *)
Theorem X6_remove_log_edges ins w :
  let p := log_file ins in
  let f := fs (machine w) in
  let w1 := add_call w (Exists_ p) in
  (Fs.exists_ f p = false -> remove_log (ins, w) = (Ok tt, (ins, w1))) /\
  (f !! p = Some Dir ->
   remove_log (ins, w) = (Raise IsADirectoryError, (ins, w1))) /\
  (forall t, f !! p = Some (Symlink t) -> Fs.exists_ f p = true ->
     remove_log (ins, w)
     = (Ok tt, (ins, with_machine w1 (with_fs (machine w) (delete p f)))) /\
     delete p f !! t = f !! t) /\
  fst (snd (remove_log (ins, w))) = ins.
Proof.
  intros p f w1. subst p f w1. rewrite remove_log_eq. cbv zeta.
  split; [|split; [|split]].
  - now intros ->.
  - intros Hd.
    assert (Fs.exists_ (fs (machine w)) (log_file ins) = true) as ->.
    { unfold Fs.exists_, Fs.locate, Fs.MAXSYMLINKS. cbn. now rewrite Hd. }
    unfold Fs.remove. now rewrite Hd.
  - intros t Hl Hex. rewrite Hex. unfold Fs.remove. rewrite Hl.
    split; [reflexivity|].
    apply lookup_delete_ne. intros <-.
    unfold Fs.exists_, Fs.locate in Hex.
    rewrite (self_link_loops _ _ _ Hl) in Hex. discriminate Hex.
  - destruct (Fs.exists_ _ _); [|reflexivity].
    now destruct (Fs.remove _ _).
Qed.

(** ** What a step may change in the object *)

Lemma grows_refl ins : grows ins ins.
Proof. unfold grows. auto 10. Qed.

Lemma grows_trans a b c : grows a b -> grows b c -> grows a c.
Proof.
  unfold grows. intros (A1 & A2 & A3 & A4 & A5 & A6) (B1 & B2 & B3 & B4 & B5 & B6).
  repeat split; try congruence; auto.
  intros Hc. rewrite B6, A6; congruence.
Qed.

Lemma grows_with_development_path ins v :
  grows ins (with_development_path ins v).
Proof. unfold grows. cbn. auto 10. Qed.

Lemma _is_done_grows t ins w : grows ins (fst (snd (_is_done t (ins, w)))).
Proof.
  assert (forall u, recorded u ins = true ->
                    recorded u (with_log ins (Some (record (log ins) t))) = true)
    as Hmono.
  { intros u [s [Hl Hu]]%recorded_true. apply recorded_true.
    eexists; split; [reflexivity|]. eapply record_mono; eauto. }
  destruct (_is_done_outcome t ins w) as [Hd|_ Hr|f Hc Hr Hw|e Hc Hr Hw];
    cbn [fst snd]; try apply grows_refl;
    unfold grows; cbn; repeat split; auto; congruence.
Qed.

(** ** Rules for the two invariants *)

Lemma keeps_ret {A} (a : A) : keeps (ret a).
Proof. intros ins w. apply grows_refl. Qed.

Lemma keeps_raise {A} e : keeps (@raise A e).
Proof. intros ins w. apply grows_refl. Qed.

Lemma keeps_bind {A B} (m : M A) (k : A -> M B) :
  keeps m -> (forall a, keeps (k a)) -> keeps (bind m k).
Proof.
  intros Hm Hk ins w. unfold bind. specialize (Hm ins w).
  destruct (m (ins, w)) as [[a|e] [ins1 w1]]; cbn [fst snd] in *;
    [|assumption].
  eapply grows_trans; [exact Hm|apply Hk].
Qed.

Lemma keeps_get_self : keeps get_self.
Proof. intros ins w. apply grows_refl. Qed.

Lemma keeps_get_machine : keeps get_machine.
Proof. intros ins w. apply grows_refl. Qed.

Lemma keeps_emit e : keeps (emit e).
Proof. intros ins w. apply grows_refl. Qed.

Lemma keeps_fs_op op : keeps (fs_op op).
Proof.
  intros ins w. rewrite fs_op_eq. destruct (op _); apply grows_refl.
Qed.

Lemma keeps_external {A} (eff : Machine -> result A * Machine) :
  keeps (external eff).
Proof. intros ins w. apply grows_refl. Qed.

Lemma keeps_run_command cmd : keeps (run_command cmd).
Proof. intros ins w. apply grows_refl. Qed.

Lemma keeps_download_single a b c d : keeps (download_single a b c d).
Proof. intros ins w. apply grows_refl. Qed.

Lemma keeps_set_development_path v : keeps (set_development_path v).
Proof. intros ins w. apply grows_with_development_path. Qed.

Lemma keeps__is_done t : keeps (_is_done t).
Proof. intros ins w. apply _is_done_grows. Qed.

Lemma keeps_try_except {A} (body : M A) caught handler :
  keeps body -> keeps handler -> keeps (try_except body caught handler).
Proof.
  intros Hb Hh ins w. unfold try_except. specialize (Hb ins w).
  destruct (body (ins, w)) as [[a|e] [ins1 w1]]; cbn [fst snd] in *;
    [assumption|].
  destruct (caught e); [|assumption].
  eapply grows_trans; [exact Hb|apply Hh].
Qed.

(** After [bind m k] the object has grown from what [m] left, when [k]
    keeps. *)
Lemma bind_grows_from {A B} (m : M A) (k : A -> M B) st :
  (forall a, keeps (k a)) ->
  grows (fst (snd (m st))) (fst (snd (bind m k st))).
Proof.
  intros Hk. unfold bind.
  destruct (m st) as [[a|e] [ins1 w1]]; cbn [fst snd];
    [apply Hk|apply grows_refl].
Qed.

Lemma emits_weaken {A} (P Q : event -> bool) (m : M A) :
  (forall e, P e = true -> Q e = true) -> emits P m -> emits Q m.
Proof.
  intros HPQ Hm st. destruct (Hm st) as (evs & Hc & Hp).
  exists evs. split; [exact Hc|].
  rewrite forallb_forall in *. auto.
Qed.

Lemma emits_nothing {A} P (m : M A) :
  (forall st, calls (snd (snd (m st))) = calls (snd st)) -> emits P m.
Proof. intros H st. exists []. now rewrite app_nil_r. Qed.

Lemma emits_ret {A} P (a : A) : emits P (ret a).
Proof. now apply emits_nothing. Qed.

Lemma emits_raise {A} P e : emits P (@raise A e).
Proof. now apply emits_nothing. Qed.

Lemma emits_get_self P : emits P get_self.
Proof. now apply emits_nothing. Qed.

Lemma emits_get_machine P : emits P get_machine.
Proof. now apply emits_nothing. Qed.

Lemma emits_set_development_path P v : emits P (set_development_path v).
Proof. now apply emits_nothing. Qed.

Lemma emits_set_log P v : emits P (set_log v).
Proof. now apply emits_nothing. Qed.

Lemma emits_modify_self P f : emits P (modify_self f).
Proof. now apply emits_nothing. Qed.

Lemma emits_external {A} P (eff : Machine -> result A * Machine) :
  emits P (external eff).
Proof. now apply emits_nothing. Qed.

Lemma emits_fs_op P op : emits P (fs_op op).
Proof.
  apply emits_nothing. intros [ins w]. rewrite fs_op_eq.
  now destruct (op _).
Qed.

Lemma emits__is_done P t : emits P (_is_done t).
Proof. apply emits_nothing. intros [ins w]. apply _is_done_calls. Qed.

Lemma emits_emit (P : event -> bool) e : P e = true -> emits P (emit e).
Proof. intros He st. exists [e]. cbn. now rewrite He. Qed.

Lemma emits_run_command (P : event -> bool) cmd :
  P (RunCommand cmd) = true -> emits P (run_command cmd).
Proof. intros He st. exists [RunCommand cmd]. cbn. now rewrite He. Qed.

Lemma emits_download_single (P : event -> bool) a b c d :
  P (DownloadSingle a b c d) = true -> emits P (download_single a b c d).
Proof. intros He st. exists [DownloadSingle a b c d]. cbn. now rewrite He. Qed.

Lemma emits_bind {A B} P (m : M A) (k : A -> M B) :
  emits P m -> (forall a, emits P (k a)) -> emits P (bind m k).
Proof.
  intros Hm Hk st. unfold bind. destruct (Hm st) as (e1 & Hc1 & Hp1).
  destruct (m st) as [[a|e] st1]; cbn [fst snd] in *; [|eauto].
  destruct (Hk a st1) as (e2 & Hc2 & Hp2).
  exists (e1 ++ e2). rewrite Hc2, Hc1, <- app_assoc. split; [reflexivity|].
  rewrite forallb_app, Hp1, Hp2. reflexivity.
Qed.

Lemma emits_try_except {A} P (body : M A) caught handler :
  emits P body -> emits P handler -> emits P (try_except body caught handler).
Proof.
  intros Hb Hh st. unfold try_except. destruct (Hb st) as (e1 & Hc1 & Hp1).
  destruct (body st) as [[a|e] st1]; cbn [fst snd] in *; [eauto|].
  destruct (caught e); [|eauto].
  destruct (Hh st1) as (e2 & Hc2 & Hp2).
  exists (e1 ++ e2). rewrite Hc2, Hc1, <- app_assoc. split; [reflexivity|].
  rewrite forallb_app, Hp1, Hp2. reflexivity.
Qed.

(** Syntax-directed proof of [keeps] and [emits] goals: the lemmas already
    proved for methods (hint database [methods]), the rules above, and a
    case split at every branch of the code. *)
Create HintDb methods discriminated.

#[local] Hint Resolve keeps_ret keeps_raise keeps_get_self keeps_get_machine
  keeps_emit keeps_fs_op keeps_external keeps_run_command
  keeps_download_single keeps_set_development_path keeps__is_done
  emits_ret emits_raise emits_get_self emits_get_machine
  emits_set_development_path emits_set_log emits_modify_self emits_external
  emits_fs_op emits__is_done : methods.

Ltac branch :=
  match goal with
  | |- keeps (if ?b then _ else _) => destruct b
  | |- keeps (match ?x with _ => _ end) => destruct x
  | |- emits _ (if ?b then _ else _) => destruct b
  | |- emits _ (match ?x with _ => _ end) => destruct x
  end.

Ltac rules :=
  repeat first
    [ solve [auto 1 with methods nocore]
    | apply emits_emit; reflexivity
    | apply emits_run_command; reflexivity
    | apply emits_download_single; reflexivity
    | apply keeps_try_except | apply emits_try_except
    | apply keeps_bind | apply emits_bind
    | branch | progress cbv beta zeta
    | match goal with |- forall _, _ => intro end ].

(** ** Every method under the two invariants *)

Lemma keeps_os_path_exists p : keeps (os_path_exists p).
Proof. intros ins w. apply grows_refl. Qed.

Lemma emits_os_path_exists p : emits not_pip (os_path_exists p).
Proof. intros [ins w]. exists [Exists_ p]. now rewrite os_path_exists_eq. Qed.

Lemma keeps__is_tool n : keeps (_is_tool n).
Proof. intros ins w. apply grows_refl. Qed.

#[local] Hint Resolve keeps_os_path_exists emits_os_path_exists
  keeps__is_tool : methods.

Lemma keeps_import_rdkit : keeps import_rdkit.
Proof. unfold import_rdkit. rules. Qed.

Lemma emits_import_rdkit : emits not_pip import_rdkit.
Proof. unfold import_rdkit. rules. Qed.

Lemma keeps__package_path : keeps _package_path.
Proof.
  intros ins w. rewrite _package_path_eq.
  destruct (development_path ins); cbn [fst snd];
    [apply grows_refl|apply grows_with_development_path].
Qed.

Lemma emits__package_path : emits not_pip _package_path.
Proof.
  intros [ins w]. rewrite _package_path_eq.
  destruct (development_path ins); cbn [fst snd].
  - exists []. now rewrite app_nil_r.
  - eexists [_; _; _]. cbn. rewrite <- !app_assoc. now split.
Qed.

#[local] Hint Resolve keeps_import_rdkit emits_import_rdkit
  keeps__package_path emits__package_path : methods.

Lemma keeps_conda : keeps conda.
Proof. unfold conda. rules. Qed.

#[local] Hint Resolve keeps_conda : methods.

Lemma keeps_git : keeps git.
Proof. unfold git. rules. Qed.

Lemma keeps_rdkit : keeps rdkit.
Proof. unfold rdkit. rules. Qed.

Lemma keeps_config : keeps config.
Proof. unfold config. rules. Qed.

Lemma keeps__clone_repo path : keeps (_clone_repo path).
Proof. unfold _clone_repo. rules. Qed.

Lemma emits__clone_repo path : emits not_pip (_clone_repo path).
Proof. unfold _clone_repo. rules. Qed.

#[local] Hint Resolve keeps__clone_repo emits__clone_repo : methods.

Lemma keeps_base_conda : keeps base_conda.
Proof. unfold base_conda. rules. Qed.

Lemma keeps_server_docker : keeps server_docker.
Proof. unfold server_docker. rules. Qed.

Lemma emits_rdkit : emits not_pip rdkit.
Proof. unfold rdkit. rules. Qed.

Lemma emits_config : emits not_pip config.
Proof. unfold config. rules. Qed.

Lemma emits__config : emits not_pip _config.
Proof. unfold _config. rules. Qed.

Lemma emits__credentials : emits not_pip _credentials.
Proof. unfold _credentials. rules. Qed.

Lemma emits_read_log : emits not_pip read_log.
Proof.
  intros [ins w]. exists [Exists_ (log_file ins)]. rewrite read_log_eq.
  cbv zeta. destruct (Fs.exists_ _ _); [|now split].
  now destruct (Fs.read _ _).
Qed.

#[local] Hint Resolve emits__config emits__credentials emits_read_log : methods.

Lemma emits___init__ c : emits not_pip (__init__ c).
Proof. unfold __init__. rules. Qed.

Lemma emits_base_conda : emits not_pip base_conda.
Proof. unfold base_conda. rules. Qed.

Lemma emits_server_docker : emits not_pip server_docker.
Proof. unfold server_docker. rules. Qed.

(** The steps, each with the name it records. *)
Lemma step_records name (step : M unit) (rest : M unit) ins w :
  step = (d <- _is_done name ;;; if d then ret tt else rest) ->
  keeps rest ->
  grows ins (fst (snd (step (ins, w)))) /\
  (check_install_log ins = true ->
   recorded name (fst (snd (step (ins, w)))) = true).
Proof.
  intros -> Hrest.
  assert (forall d : bool, keeps (if d then ret tt else rest)) as Hk
    by (intros []; [apply keeps_ret|exact Hrest]).
  split.
  - apply keeps_bind; [apply keeps__is_done|exact Hk].
  - intros Hc.
    pose proof (gate_marks name ins w Hc) as (_ & G2 & _).
    pose proof (bind_grows_from (_is_done name)
                  (fun d : bool => if d then ret tt else rest) (ins, w) Hk)
      as (_ & _ & _ & _ & Hmono & _).
    now apply Hmono.
Qed.

(** X3: whatever a step does and however it ends, it leaves the tracking
    flag, the path of the ledger file and the configuration of the object
    as they were, no name leaves the in-memory ledger, and with tracking
    enabled the name of the step is in the ledger afterwards. *)
Theorem X3_steps_only_grow_the_ledger name step ins w :
  In (name, step)
    [("conda", conda); ("git", git); ("rdkit", rdkit); ("config", config);
     ("base_conda", base_conda); ("server_docker", server_docker)] ->
  let ins' := fst (snd (step (ins, w))) in
  check_install_log ins' = check_install_log ins /\
  log_file ins' = log_file ins /\
  (forall u, recorded u ins = true -> recorded u ins' = true) /\
  (check_install_log ins = true -> recorded name ins' = true) /\
  (check_install_log ins = false -> log ins' = log ins).
Proof.
  intros Hin ins'. subst ins'.
  assert (grows ins (fst (snd (step (ins, w)))) /\
          (check_install_log ins = true ->
           recorded name (fst (snd (step (ins, w)))) = true))
    as [(G1 & G2 & _ & _ & G5 & G6) Hrec].
  { cbn [In] in Hin.
    destruct Hin as [H|[H|[H|[H|[H|[H|[]]]]]]]; injection H as <- <-;
      eapply step_records; try reflexivity; rules. }
  auto 10.
Qed.

(** ** The whole sequence *)

Lemma listed_step_records name step ins w :
  In (name, step)
    [("conda", conda); ("git", git); ("rdkit", rdkit); ("config", config);
     ("base_conda", base_conda); ("server_docker", server_docker)] ->
  grows ins (fst (snd (step (ins, w)))) /\
  (check_install_log ins = true ->
   recorded name (fst (snd (step (ins, w)))) = true).
Proof.
  intros Hin. cbn [In] in Hin.
  destruct Hin as [H|[H|[H|[H|[H|[H|[]]]]]]]; injection H as <- <-;
    eapply step_records; try reflexivity; rules.
Qed.

Lemma sequence_records (steps : list (string * M unit)) :
  (forall name step ins w, In (name, step) steps ->
     grows ins (fst (snd (step (ins, w)))) /\
     (check_install_log ins = true ->
      recorded name (fst (snd (step (ins, w)))) = true)) ->
  forall ins w,
    check_install_log ins = true ->
    fst (sequence (map snd steps) (ins, w)) = Ok tt ->
    let ins' := fst (snd (sequence (map snd steps) (ins, w))) in
    grows ins ins' /\
    (forall name, In name (map fst steps) -> recorded name ins' = true).
Proof.
  induction steps as [|[n s] steps IH]; intros Hall ins w Hc Hok; cbn.
  - split; [apply grows_refl|]. intros name [].
  - cbn [sequence foldr map snd] in Hok. unfold bind in Hok |- *.
    destruct (Hall n s ins w (or_introl eq_refl)) as [Hg Hrec].
    specialize (Hrec Hc).
    destruct (s (ins, w)) as [[[]|e] [ins1 w1]]; cbn [fst snd] in *;
      [|discriminate].
    assert (check_install_log ins1 = true) as Hc1
      by (destruct Hg as [-> _]; exact Hc).
    fold (sequence (map snd steps)) in Hok |- *.
    destruct (IH (fun n' s' i' w' H => Hall n' s' i' w' (or_intror H))
                ins1 w1 Hc1 Hok) as [Hg' Hrec'].
    split; [eapply grows_trans; eassumption|].
    intros name [<-|Hin]; [|now apply Hrec'].
    destruct Hg' as (_ & _ & _ & _ & Hmono & _). now apply Hmono.
Qed.

Lemma bind_unit_ret (m : M unit) st : bind m (fun _ => ret tt) st = m st.
Proof. unfold bind, ret. now destruct (m st) as [[[]|e] st']. Qed.

Lemma bind_ext {A B} (m : M A) (k k' : A -> M B) st :
  (forall a s, k a s = k' a s) -> bind m k st = bind m k' st.
Proof.
  intros H. unfold bind. destruct (m st) as [[a|e] st']; [apply H|reflexivity].
Qed.

Lemma check_dependencies_eq st :
  check_dependencies st
  = bind (__init__ true)
      (fun _ => sequence [conda; git; rdkit; config; base_conda; server_docker])
      st.
Proof.
  unfold check_dependencies, sequence. cbn [foldr].
  do 6 (apply bind_ext; intros ? ?).
  symmetry. apply bind_unit_ret.
Qed.

Lemma read_log_keeps_fields ins w :
  let ins' := fst (snd (read_log (ins, w))) in
  check_install_log ins' = check_install_log ins /\
  log_file ins' = log_file ins.
Proof.
  rewrite read_log_eq. cbv zeta. destruct (Fs.exists_ _ _); [|now split].
  now destruct (Fs.read _ _).
Qed.

(** What a successful construction leaves in the object. *)
Lemma __init___fields c st :
  fst (__init__ c st) = Ok tt ->
  check_install_log (fst (snd (__init__ c st))) = c /\
  log_file (fst (snd (__init__ c st))) = OsPath.join EOS INSTALL_LOG_FILE.
Proof.
  unfold __init__, bind, set_development_path. cbv beta iota.
  destruct (_config _) as [[[]|e] st1]; [|discriminate].
  destruct (_credentials _) as [[[]|e] st2]; [|discriminate].
  destruct (external _ _) as [[cfg|e] [ins3 w3]]; [|discriminate].
  unfold modify_self, set_log. cbn [fst snd]. intros _.
  match goal with |- context [read_log (?i, ?w)] =>
    pose proof (read_log_keeps_fields i w) as [H1 H2] end.
  cbv zeta in H1, H2. now rewrite H1, H2.
Qed.

Lemma runs_app cmd a b : runs cmd (a ++ b) = runs cmd a + runs cmd b.
Proof. unfold runs. now rewrite filter_app, length_app. Qed.

Lemma runs_not_pip evs :
  forallb not_pip evs = true -> runs "pip install -y conda" evs = 0.
Proof.
  unfold runs. induction evs as [|e evs IH]; [reflexivity|].
  cbn [forallb]. intros [He Hevs]%andb_prop.
  unfold not_pip, is_run in He. apply negb_true_iff, bool_decide_eq_false in He.
  rewrite filter_cons_False by exact He. auto.
Qed.

(** Once [conda] is recorded, [git] runs no installation of conda. *)
Lemma git_after_conda ins w :
  check_install_log ins = true ->
  recorded "conda" ins = true ->
  exists evs,
    calls (snd (snd (git (ins, w)))) = calls w ++ evs /\
    forallb not_pip evs = true.
Proof.
  intros Hc Hr. pose proof (gate_marks "git" ins w Hc) as G. cbv zeta in G.
  unfold git, bind.
  destruct (_is_done "git" (ins, w)) as [[[]|e] [ins1 w1]]; cbn in G;
    destruct G as (G1 & _ & G3 & G4);
    try (exists []; rewrite app_nil_r; now split).
  rewrite _is_tool_eq.
  destruct (path_tools (machine w1) !! "git"); cbn [fst snd].
  - exists [Which "git"]. cbn. now rewrite G4.
  - assert (conda (ins1, add_call w1 (Which "git"))
            = (Ok tt, (ins1, add_call w1 (Which "git")))) as ->.
    { unfold conda, bind. rewrite _is_done_recorded; auto. }
    exists [Which "git"; RunCommand "conda install -y -q git"].
    cbn. rewrite G4, <- app_assoc. now split.
Qed.

(** X9: [check_dependencies] installs conda at most once: over the whole
    run, however it ends, the command [pip install -y conda] is run at
    most once, although both [conda] and [git] can run it; and when the
    run returns, tracking is enabled and the six task names are in the
    ledger of the object. *)
Theorem X9_check_dependencies_installs_conda_once st :
  let r := check_dependencies st in
  runs "pip install -y conda" (new_calls st (snd r)) <= 1 /\
  (fst r = Ok tt ->
   check_install_log (fst (snd r)) = true /\
   forall name,
     In name ["conda"; "git"; "rdkit"; "config"; "base_conda"; "server_docker"] ->
     recorded name (fst (snd r)) = true).
Proof.
  cbv zeta. split.
  - assert (exists evs,
      calls (snd (snd (check_dependencies st))) = calls (snd st) ++ evs /\
      runs "pip install -y conda" evs <= 1) as (evs & Hc & Hr).
    { unfold check_dependencies. unfold bind at 1.
      destruct (emits___init__ true st) as (e0 & Hc0 & Hp0).
      pose proof (__init___fields true st) as Hf.
      destruct (__init__ true st) as [[[]|e] [ins1 w1]]; cbn [fst snd] in *.
      2:{ exists e0. split; [exact Hc0|]. rewrite runs_not_pip by exact Hp0. lia. }
      destruct (Hf eq_refl) as [Hck _]. clear Hf.
      unfold bind at 1.
      destruct (conda_shape ins1 w1 Hck)
        as (r & ins2 & w2 & e1 & -> & C1 & C2 & _ & C4 & C5).
      assert (runs "pip install -y conda" e1 <= 1) as Hr1
        by (destruct C5 as [->|[->| ->]]; vm_compute; lia).
      destruct r as [[]|e]; cbn [fst snd].
      2:{ exists (e0 ++ e1). rewrite C4, Hc0, <- app_assoc.
          split; [reflexivity|].
          rewrite runs_app, (runs_not_pip e0) by exact Hp0. lia. }
      unfold bind at 1.
      destruct (git_after_conda ins2 w2 C1 C2) as (e2 & Hc2 & Hp2).
      assert (emits not_pip
                (rdkit ;;; config ;;; base_conda ;;; server_docker)) as Hrest.
      { pose proof emits_rdkit. pose proof emits_config.
        pose proof emits_base_conda. pose proof emits_server_docker.
        apply emits_bind; [assumption|intros _].
        apply emits_bind; [assumption|intros _].
        apply emits_bind; [assumption|intros _]. assumption. }
      destruct (git (ins2, w2)) as [[[]|e] st3]; cbn [fst snd] in *.
      2:{ exists (e0 ++ e1 ++ e2). rewrite Hc2, C4, Hc0, <- !app_assoc.
          split; [reflexivity|].
          rewrite !runs_app, (runs_not_pip e0), (runs_not_pip e2) by assumption.
          lia. }
      destruct (Hrest st3) as (e3 & Hc3 & Hp3).
      exists (e0 ++ e1 ++ e2 ++ e3).
      rewrite Hc3, Hc2, C4, Hc0, <- !app_assoc. split; [reflexivity|].
      rewrite !runs_app, (runs_not_pip e0), (runs_not_pip e2),
        (runs_not_pip e3) by assumption.
      lia. }
    destruct st as [ins w].
    destruct (check_dependencies (ins, w)) as [r [ins' w']]. cbn [snd] in *.
    now rewrite (new_calls_app _ _ _ _ _ Hc).
  - rewrite check_dependencies_eq. unfold bind at 1 2 3.
    pose proof (__init___fields true st) as Hf.
    destruct (__init__ true st) as [[[]|e] [ins1 w1]]; cbn [fst snd] in *;
      [|discriminate].
    destruct (Hf eq_refl) as [Hck _]. intros Hok.
    pose proof (sequence_records
      [("conda", conda); ("git", git); ("rdkit", rdkit); ("config", config);
       ("base_conda", base_conda); ("server_docker", server_docker)]
      listed_step_records ins1 w1 Hck Hok) as [Hg Hrec].
    split; [|exact Hrec].
    destruct Hg as [Hg1 _]. exact (eq_trans Hg1 Hck).
Qed.

(** ** The resolver [_config], case by case *)

Lemma _package_path_fs ins w :
  machine (snd (snd (_package_path (ins, w)))) = machine w /\
  development_path (fst (snd (_package_path (ins, w))))
  = Some (from_option id candidate_dir (development_path ins)).
Proof.
  rewrite _package_path_eq.
  destruct (development_path ins) eqn:Hd; cbn; [|easy]. now rewrite Hd.
Qed.

Lemma _config_eq ins w :
  _config (ins, w)
  = let dst := OsPath.join EOS CONFIG_JSON in
    let w1 := add_call w (Exists_ dst) in
    if Fs.exists_ (fs (machine w)) dst then (Ok tt, (ins, w1))
    else
      let st2 := snd (_package_path (ins, w1)) in
      let src := OsPath.join (from_option id candidate_dir (development_path ins))
                   CONFIG_JSON in
      let st3 := (fst st2, add_call (snd st2) (Exists_ src)) in
      if Fs.exists_ (fs (machine w)) src
      then fs_op (fun f => Fs.symlink f src dst) st3
      else download_single GITHUB_ORG GITHUB_ERSILIA_REPO CONFIG_JSON dst st3.
Proof.
  unfold _config. cbv zeta. unfold bind at 1. rewrite os_path_exists_eq.
  destruct (Fs.exists_ _ _); [reflexivity|].
  unfold bind at 1. rewrite _package_path_eq.
  destruct (development_path ins) as [d|] eqn:Hd; unfold bind, get_self, ret;
    cbn [fst snd development_path with_development_path from_option id];
    rewrite ?Hd, os_path_exists_eq; cbn [fst snd add_call machine];
    destruct (Fs.exists_ _ _); reflexivity.
Qed.

(** X7: when the destination of the configuration file is a link that
    leads nowhere while the development tree holds the file,
    [os.path.exists] answers False for the destination, [os.symlink]
    then finds the link in its way, and [_config] raises FileExistsError
    leaving the file system as it was. *)
Theorem X7__config_raises_on_a_dangling_link ins w t :
  let dst := OsPath.join EOS CONFIG_JSON in
  let src := OsPath.join (from_option id candidate_dir (development_path ins))
               CONFIG_JSON in
  fs (machine w) !! dst = Some (Symlink t) ->
  Fs.exists_ (fs (machine w)) dst = false ->
  Fs.exists_ (fs (machine w)) src = true ->
  fst (_config (ins, w)) = Raise FileExistsError /\
  machine (snd (snd (_config (ins, w)))) = machine w.
Proof.
  intros dst src Hl Hdst Hsrc. subst dst src.
  rewrite _config_eq. cbv zeta. rewrite Hdst, Hsrc.
  pose proof (_package_path_fs ins
                (add_call w (Exists_ (OsPath.join EOS CONFIG_JSON)))) as [Hm _].
  destruct (_package_path _) as [r [ins2 w2]]. cbn [fst snd] in *.
  rewrite fs_op_eq. cbn [add_call machine]. rewrite Hm. cbn [add_call machine].
  unfold Fs.symlink. rewrite Hl. cbn. now rewrite Hm.
Qed.

(** X10: [_config] asks the remote host at most once, and exactly when
    neither the destination nor the file of the development tree exists;
    it then asks for [CONFIG_JSON] of the repository [GITHUB_ERSILIA_REPO]
    of [GITHUB_ORG], to be put at the destination. *)
Theorem X10__config_downloads_only_as_a_last_resort ins w :
  let dst := OsPath.join EOS CONFIG_JSON in
  let src := OsPath.join (from_option id candidate_dir (development_path ins))
               CONFIG_JSON in
  filter (fun e => is_download e = true)
    (new_calls (ins, w) (snd (_config (ins, w))))
  = if negb (Fs.exists_ (fs (machine w)) dst)
       && negb (Fs.exists_ (fs (machine w)) src)
    then [DownloadSingle GITHUB_ORG GITHUB_ERSILIA_REPO CONFIG_JSON dst]
    else [].
Proof.
  cbv zeta. rewrite _config_eq. cbv zeta.
  destruct (Fs.exists_ _ (OsPath.join EOS CONFIG_JSON)); cbn [negb andb].
  { unfold new_calls. cbn. now rewrite drop_app_length. }
  assert (exists evs,
    calls (snd (snd (_package_path
      (ins, add_call w (Exists_ (OsPath.join EOS CONFIG_JSON))))))
    = calls w ++ Exists_ (OsPath.join EOS CONFIG_JSON) :: evs /\
    filter (fun e => is_download e = true) evs = []) as (evs & Hc & Hf).
  { rewrite _package_path_eq. destruct (development_path ins); cbn.
    - exists []. now split.
    - eexists [_; _; _]. rewrite <- !app_assoc. now split. }
  destruct (_package_path _) as [r [ins2 w2]]. cbn [fst snd] in *.
  destruct (Fs.exists_ _ _); cbn [negb].
  - rewrite fs_op_eq. cbn [add_call machine].
    destruct (Fs.symlink _ _ _); unfold new_calls;
      cbn [fst snd add_call with_machine calls]; rewrite Hc;
      rewrite <- app_assoc, drop_app_length; cbn [app];
      rewrite filter_cons_False, filter_app, Hf by (cbn; discriminate);
      reflexivity.
  - unfold download_single, new_calls.
    cbn [fst snd add_call with_machine calls]. rewrite Hc.
    rewrite <- !app_assoc, drop_app_length. cbn [app].
    rewrite filter_cons_False, !filter_app, Hf by (cbn; discriminate).
    reflexivity.
Qed.

(** ** [_config] and then [config] *)

(** Writing a file keeps a regular file at another path in place; at the
    written path a regular file is found afterwards. *)
Lemma write_keeps_files (f f' : gmap string node) p c x perm cx :
  Fs.write f p c = Ok f' ->
  f !! x = Some (File perm cx) ->
  exists perm' cx', f' !! x = Some (File perm' cx').
Proof.
  unfold Fs.write. intros Hw Hx.
  destruct (Fs.locate f p) as [q [[] c'| |t]|q|]; try discriminate;
    injection Hw as <-;
    (destruct (decide (q = x)) as [->|Hne];
     [rewrite lookup_insert_eq|rewrite lookup_insert_ne by exact Hne]; eauto).
Qed.

Lemma write_keeps_links (f f' : gmap string node) p c x t :
  Fs.write f p c = Ok f' ->
  f !! x = Some (Symlink t) ->
  f' !! x = Some (Symlink t).
Proof.
  unfold Fs.write, Fs.locate. intros Hw Hx.
  pose proof (resolve_end Fs.MAXSYMLINKS f p) as He.
  destruct (Fs.resolve Fs.MAXSYMLINKS f p) as [q [[] c'| |t']|q|];
    try discriminate; injection Hw as <-;
    (rewrite lookup_insert_ne; [exact Hx|]); intros ->.
  - destruct He as [He _]. congruence.
  - congruence.
Qed.

(** X11: after [_config] has linked the destination to the file of the
    development tree, the step [config] finds the destination in place:
    it records its task and returns after its probe, and the link is still
    a link to the file of the tree: nothing is copied. *)
Theorem X11_config_after__config_keeps_the_link ins w perm c f :
  let dst := OsPath.join EOS CONFIG_JSON in
  let src := OsPath.join (from_option id candidate_dir (development_path ins))
               CONFIG_JSON in
  fs (machine w) !! dst = None ->
  fs (machine w) !! src = Some (File perm c) ->
  check_install_log ins = true ->
  recorded "config" ins = false ->
  let st1 := snd (_config (ins, w)) in
  Fs.write (fs (machine (snd st1))) (log_file ins)
    (ledger_text (record (log ins) "config")) = Ok f ->
  fst (_config (ins, w)) = Ok tt /\
  fs (machine (snd st1)) = <[dst := Symlink src]> (fs (machine w)) /\
  config st1
  = (Ok tt,
     (with_log (fst st1) (Some (record (log ins) "config")),
      add_call (with_machine (snd st1) (with_fs (machine (snd st1)) f))
        (Exists_ dst))) /\
  f !! dst = Some (Symlink src).
Proof.
  intros dst src Hdst Hsrc Hc Hr st1. subst st1 dst src.
  rewrite _config_eq. cbv zeta.
  assert (Fs.exists_ (fs (machine w)) (OsPath.join EOS CONFIG_JSON) = false) as ->.
  { unfold Fs.exists_. now rewrite locate_absent. }
  rewrite (exists_at_entry _ _ _ _ Hsrc).
  pose proof (_package_path_fs ins
                (add_call w (Exists_ (OsPath.join EOS CONFIG_JSON)))) as [Hm _].
  pose proof (keeps__package_path ins
                (add_call w (Exists_ (OsPath.join EOS CONFIG_JSON))))
    as (G1 & G2 & _ & _ & _ & _).
  assert (log (fst (snd (_package_path
            (ins, add_call w (Exists_ (OsPath.join EOS CONFIG_JSON))))))
          = log ins) as Hlog.
  { rewrite _package_path_eq. now destruct (development_path ins). }
  destruct (_package_path _) as [r0 [ins2 w2]]. cbn [fst snd] in *.
  rewrite fs_op_eq. cbn [add_call machine]. rewrite Hm. cbn [add_call machine].
  unfold Fs.symlink. rewrite Hdst. cbn [fst snd with_machine machine with_fs fs].
  set (src := OsPath.join (from_option id candidate_dir (development_path ins))
                CONFIG_JSON) in *.
  set (dst := OsPath.join EOS CONFIG_JSON) in *.
  intros Hw. split; [reflexivity|]. split; [reflexivity|].
  assert (f !! dst = Some (Symlink src)) as Hlink.
  { eapply write_keeps_links; [exact Hw|]. apply lookup_insert_eq. }
  assert (exists perm' c', f !! src = Some (File perm' c')) as (perm' & c' & Hfile).
  { eapply write_keeps_files; [exact Hw|].
    rewrite lookup_insert_ne; [exact Hsrc|]. intros E. congruence. }
  assert (Fs.exists_ f dst = true) as Hex.
  { unfold Fs.exists_, Fs.locate, Fs.MAXSYMLINKS. cbn [Fs.resolve].
    now rewrite Hlink, Hfile. }
  split; [|exact Hlink].
  unfold config, bind. fold dst.
  rewrite (_is_done_fresh "config" ins2 _ f); rewrite ?G1, ?G2, ?Hlog; auto.
  - rewrite os_path_exists_eq. cbn [with_machine machine with_fs fs].
    now rewrite Hex.
  - unfold recorded in *. now rewrite Hlog.
Qed.

(** ** Generated texts *)

Lemma append_assoc (a b c : string) : (a +:+ b) +:+ c = a +:+ b +:+ c.
Proof.
  induction a as [|x a IH]; [reflexivity|].
  rewrite !append_cons. now rewrite IH.
Qed.

Lemma append_empty_r (a : string) : a +:+ EmptyString = a.
Proof.
  induction a as [|x a IH]; [reflexivity|]. rewrite append_cons. now rewrite IH.
Qed.

Lemma no_lf_app a b :
  PyStr.no_lf a = true -> PyStr.no_lf b = true -> PyStr.no_lf (a +:+ b) = true.
Proof.
  intros Ha Hb. induction a as [|x a IH]; [exact Hb|].
  rewrite append_cons. cbn [PyStr.no_lf] in *.
  apply andb_prop in Ha as [-> Ha]. now rewrite IH.
Qed.

Lemma split_lf_nonempty s : PyStr.split_lf s <> [].
Proof.
  destruct s as [|c s]; [discriminate|]. cbn [PyStr.split_lf].
  destruct (Ascii.eqb c Py.LF); [discriminate|].
  destruct (PyStr.split_lf s); discriminate.
Qed.

Lemma split_lf_blank Y :
  PyStr.split_lf (PyStr.NL +:+ Y) = EmptyString :: PyStr.split_lf Y.
Proof. reflexivity. Qed.

(** The part of a string before its first line feed is the first piece. *)
Lemma split_lf_line a Y :
  PyStr.no_lf a = true ->
  PyStr.split_lf (a +:+ PyStr.NL +:+ Y) = a :: PyStr.split_lf Y.
Proof.
  intros Ha. induction a as [|x a IH]; [reflexivity|].
  rewrite append_cons. cbn [PyStr.split_lf PyStr.no_lf] in *.
  apply andb_prop in Ha as [Hx Ha]. apply negb_true_iff in Hx.
  now rewrite Hx, (IH Ha).
Qed.

Lemma split_lf_line2 a b Y :
  PyStr.no_lf a = true -> PyStr.no_lf b = true ->
  PyStr.split_lf (a +:+ b +:+ PyStr.NL +:+ Y) = (a +:+ b) :: PyStr.split_lf Y.
Proof.
  intros Ha Hb. rewrite <- append_assoc. apply split_lf_line.
  now apply no_lf_app.
Qed.

(** X15: for a version and a working directory without line feed, the
    manifest that [server_docker] writes is the template with its first
    and last lines dropped and without the eight blanks of indentation, the
    two values in their places; the script that [base_conda] writes for
    Python holds the two statements between two empty lines. *)
Theorem X15_generated_manifest v d :
  PyStr.no_lf v = true ->
  PyStr.no_lf d = true ->
  dockerfile_text v d
  = Py.write_lines
      ["FROM bentoml/model-server:" +:+ v;
       "MAINTAINER ersilia";
       EmptyString;
       "ENV LC_ALL=C.UTF-8";
       "ENV LANG=C.UTF-8";
       EmptyString;
       "WORKDIR " +:+ d;
       EmptyString;
       "COPY . .";
       EmptyString;
       "RUN conda --version";
       EmptyString;
       "RUN conda install -c conda-forge rdkit";
       "RUN pip install ."] /\
  python_script_text
  = Py.write_lines
      [EmptyString;
       "from ersilia.utils.installers import base_installer";
       "base_installer()";
       EmptyString].
Proof.
  intros Hv Hd. split; [|reflexivity].
  unfold dockerfile_text, dockerfile.
  rewrite split_lf_blank.
  rewrite split_lf_line2 by (reflexivity || assumption).
  rewrite split_lf_line by reflexivity.
  rewrite split_lf_blank.
  rewrite split_lf_line by reflexivity.
  rewrite split_lf_line by reflexivity.
  rewrite split_lf_blank.
  rewrite split_lf_line2 by (reflexivity || assumption).
  rewrite split_lf_blank.
  rewrite split_lf_line by reflexivity.
  rewrite split_lf_blank.
  rewrite split_lf_line by reflexivity.
  rewrite split_lf_blank.
  rewrite split_lf_line by reflexivity.
  rewrite split_lf_line by reflexivity.
  reflexivity.
Qed.

(** ** The entry point of the base environment *)

Lemma rdkit_untracked ins w :
  check_install_log ins = false ->
  rdkit (ins, w)
  = (let w1 := add_call w (Import "rdkit") in
     match rdkit_module (machine w) with
     | Imported => (Ok tt, (ins, w1))
     | ImportRaises ModuleNotFoundError =>
         run_command "conda install -c conda-forge -y -q rdkit" (ins, w1)
     | ImportRaises e => (Raise e, (ins, w1))
     end).
Proof.
  intros Hc. unfold rdkit, bind. rewrite _is_done_disabled by exact Hc.
  unfold try_except, import_rdkit. run.
  destruct (rdkit_module (machine w)) as [|[]]; reflexivity.
Qed.

(** X17: [base_installer] builds its object with tracking disabled, so
    once the construction has returned it imports the toolkit whatever the
    loaded ledger holds, installs it when the module is not found, and
    leaves the object, its ledger included, as the construction left
    it. *)
Theorem X17_base_installer_always_probes st st1 :
  __init__ false st = (Ok tt, st1) ->
  base_installer st = rdkit st1 /\
  check_install_log (fst st1) = false /\
  fst (snd (base_installer st)) = fst st1 /\
  Import "rdkit" ∈ new_calls st1 (snd (base_installer st)) /\
  (rdkit_module (machine (snd st1)) = ImportRaises ModuleNotFoundError ->
   RunCommand "conda install -c conda-forge -y -q rdkit"
   ∈ new_calls st1 (snd (base_installer st))).
Proof.
  intros Hinit.
  assert (base_installer st = rdkit st1) as Hb
    by (unfold base_installer, bind; now rewrite Hinit).
  assert (check_install_log (fst st1) = false) as Hc.
  { pose proof (__init___fields false st) as Hinit'. rewrite Hinit in Hinit'.
    now apply Hinit'. }
  rewrite Hb. destruct st1 as [ins1 w1]. cbn [fst snd] in *.
  rewrite (rdkit_untracked ins1 w1 Hc). cbv zeta.
  split; [reflexivity|]. split; [exact Hc|].
  unfold new_calls.
  destruct (rdkit_module (machine w1)) as [|[]];
    cbn [fst snd add_call with_machine calls run_command];
    rewrite <- ?app_assoc, drop_app_length;
    (split; [reflexivity|]); (split; [set_solve|]);
    intros H; try discriminate H; set_solve.
Qed.

(** ** Credentials *)

Lemma external_eq {A} (eff : Machine -> result A * Machine) ins w :
  external eff (ins, w)
  = (fst (eff (machine w)), (ins, with_machine w (snd (eff (machine w))))).
Proof. reflexivity. Qed.

Lemma bind_ext_at {A B} (m : M A) (k k' : A -> M B) st :
  (forall a st', m st = (Ok a, st') -> k a st' = k' a st') ->
  bind m k st = bind m k' st.
Proof.
  intros H. unfold bind.
  destruct (m st) as [[a|e] st']; [now apply H|reflexivity].
Qed.

Lemma _credentials_eq ins w :
  _credentials (ins, w)
  = let dst := OsPath.join EOS CREDENTIALS_JSON in
    let w1 := add_call w (Exists_ dst) in
    if Fs.exists_ (fs (machine w)) dst then (Ok tt, (ins, w1))
    else
      let st2 := snd (_package_path (ins, w1)) in
      let src := OsPath.join (from_option id candidate_dir (development_path ins))
                   CREDENTIALS_JSON in
      let st3 := (fst st2,
                  add_call (add_call (snd st2) (Exists_ src)) (Exists_ src)) in
      if Fs.exists_ (fs (machine w)) src
      then fs_op (fun f => Fs.symlink f src dst) st3
      else (external Secrets_fetch_from_github ;;;
            done <- external (Secrets_to_credentials src) ;;;
            if done then fs_op (fun f => Fs.symlink f src dst) else ret tt) st3.
Proof.
  unfold _credentials. cbv zeta. unfold bind at 1. rewrite os_path_exists_eq.
  destruct (Fs.exists_ _ _); [reflexivity|].
  unfold bind at 1.
  pose proof (_package_path_fs ins
                (add_call w (Exists_ (OsPath.join EOS CREDENTIALS_JSON))))
    as [Hm Hd].
  destruct (_package_path _) as [r [ins2 w2]] eqn:Hp. cbn [fst snd] in *.
  assert (r = Ok tt) as ->.
  { pose proof (_package_path_sets ins
      (add_call w (Exists_ (OsPath.join EOS CREDENTIALS_JSON)))) as [H _].
    now rewrite Hp in H. }
  unfold bind at 1. unfold get_self at 1. cbn [fst snd]. rewrite Hd.
  unfold bind at 1 2. rewrite os_path_exists_eq. unfold ret at 1.
  cbn [fst snd]. unfold bind at 1. rewrite os_path_exists_eq.
  cbn [add_call machine]. rewrite Hm. cbn [add_call machine].
  destruct (Fs.exists_ _ _); [reflexivity|].
  apply bind_ext_at. intros [] [ins3 w3] He.
  rewrite external_eq in He. injection He as _ <- _.
  unfold bind at 1. unfold get_self at 1. cbn [fst snd]. now rewrite Hd.
Qed.

(** X12: when neither the destination of the credentials nor the file of
    the development tree exists, [_credentials] has the secrets fetched and
    then written at the path of the development tree, never at the
    destination, and links the destination to that path only when the
    writing reports success; when the file of the tree exists, it links
    without fetching. *)
Theorem X12__credentials_go_through_the_tree ins w :
  let dst := OsPath.join EOS CREDENTIALS_JSON in
  let src := OsPath.join (from_option id candidate_dir (development_path ins))
               CREDENTIALS_JSON in
  let st2 := snd (_package_path (ins, add_call w (Exists_ dst))) in
  let st3 := (fst st2,
              add_call (add_call (snd st2) (Exists_ src)) (Exists_ src)) in
  Fs.exists_ (fs (machine w)) dst = false ->
  (Fs.exists_ (fs (machine w)) src = true ->
   _credentials (ins, w) = fs_op (fun f => Fs.symlink f src dst) st3) /\
  (Fs.exists_ (fs (machine w)) src = false ->
   _credentials (ins, w)
   = (external Secrets_fetch_from_github ;;;
      done <- external (Secrets_to_credentials src) ;;;
      if done then fs_op (fun f => Fs.symlink f src dst) else ret tt) st3).
Proof.
  cbv zeta. intros Hdst. rewrite _credentials_eq. cbv zeta. rewrite Hdst.
  split; now intros ->.
Qed.

(** ** Copy of the repository *)

(** X13: [_clone_repo] always copies the tree at the development path of
    the object, or at the directory two levels above the module when none
    is set, whatever that directory holds, into [path] joined with the
    package name, and answers that path; it never clones from the remote
    host. *)
Theorem X13__clone_repo_always_copies path ins w :
  let d := from_option id candidate_dir (development_path ins) in
  let path_repo := OsPath.join path (cfg_HUB_PACKAGE ins) in
  _clone_repo path (ins, w)
  = (external (shutil_copytree d path_repo) ;;; ret path_repo)
      (snd (_package_path (ins, w))).
Proof.
  cbv zeta. unfold _clone_repo. unfold bind at 1. unfold get_self at 1.
  cbn [fst snd]. unfold bind at 1.
  pose proof (_package_path_fs ins w) as [_ Hd].
  pose proof (keeps__package_path ins w) as (_ & _ & _ & G4 & _).
  pose proof (_package_path_sets ins w) as [Hok _].
  destruct (_package_path (ins, w)) as [r [ins2 w2]]. cbn [fst snd] in *.
  subst r. unfold bind at 1. unfold get_self at 1. cbn [fst snd].
  now rewrite Hd.
Qed.

(** ** Environment and image *)

(** X14: [base_conda] and [server_docker] stop at their probe: past the
    ledger gate, when the collaborator answers that the environment (the
    image) exists, the step returns with the machine as the probe left it:
    no temporary directory, no copy of the repository, no file, no command
    and no build. *)
Theorem X14_environment_and_image_probes ins w ins1 w1 m :
  (_is_done "base_conda" (ins, w) = (Ok false, (ins1, w1)) ->
   SimpleConda_exists Versioner_base_conda_name (machine w1) = (Ok true, m) ->
   base_conda (ins, w) = (Ok tt, (ins1, with_machine w1 m))) /\
  (_is_done "server_docker" (ins, w) = (Ok false, (ins1, w1)) ->
   SimpleDocker_exists (fst (fst Versioner_server_docker_name))
     (snd (fst Versioner_server_docker_name))
     (snd Versioner_server_docker_name) (machine w1) = (Ok true, m) ->
   server_docker (ins, w) = (Ok tt, (ins1, with_machine w1 m))).
Proof.
  split; intros Hd He.
  - unfold base_conda. cbv zeta. unfold bind at 1. rewrite Hd.
    unfold bind at 1. rewrite external_eq, He. reflexivity.
  - unfold server_docker. cbv zeta. unfold bind at 1. rewrite Hd.
    unfold bind at 1. rewrite external_eq, He. reflexivity.
Qed.

(** ** Construction *)

(** X16: on a machine where the configuration file and the credentials are
    both in place, the construction probes the two paths and nothing else
    before [ErsiliaBase.__init__]: no development path is detected, no link
    is made, nothing is fetched; the object then holds the flag it was
    given, the ledger path under [EOS] and no ledger, and loads the ledger
    file. What the object held before plays no part. *)
Theorem X16_construction_on_a_bootstrapped_machine c ins w cfg m :
  Fs.exists_ (fs (machine w)) (OsPath.join EOS CONFIG_JSON) = true ->
  Fs.exists_ (fs (machine w)) (OsPath.join EOS CREDENTIALS_JSON) = true ->
  ErsiliaBase___init__ (machine w) = (Ok cfg, m) ->
  __init__ c (ins, w)
  = read_log
      ({| development_path := None;
          check_install_log := c;
          log_file := OsPath.join EOS INSTALL_LOG_FILE;
          log := None;
          cfg_HUB_ORG := fst cfg;
          cfg_HUB_PACKAGE := snd cfg |},
       {| machine := m;
          calls := calls w ++ [Exists_ (OsPath.join EOS CONFIG_JSON);
                               Exists_ (OsPath.join EOS CREDENTIALS_JSON)] |}).
Proof.
  intros H1 H2 H3. unfold __init__. unfold bind at 1.
  unfold set_development_path. cbn [fst snd]. unfold bind at 1.
  rewrite _config_eq. cbv zeta. cbn [with_development_path development_path].
  rewrite H1. unfold bind at 1. rewrite _credentials_eq. cbv zeta.
  cbn [add_call machine]. rewrite H2. unfold bind at 1.
  rewrite external_eq. cbn [add_call machine]. rewrite H3. cbn [fst snd].
  unfold bind, modify_self, set_log. cbn [fst snd].
  unfold with_log, with_log_file, with_check_install_log, with_cfg,
    with_development_path, with_machine, add_call. cbn.
  now rewrite <- app_assoc.
Qed.

End Installer.

(** * The statements at concrete inputs *)

Import Sample.

Example join_plain : OsPath.join EOS CONFIG_JSON = "/home/user/eos/config.json".
Proof. reflexivity. Qed.

Example join_absolute : OsPath.join EOS "/etc/x" = "/etc/x".
Proof. reflexivity. Qed.

Example split_file :
  OsPath.split __file__ = ("/repo/ersilia/utils", "installers.py").
Proof. reflexivity. Qed.

Example split_root : OsPath.split "/repo" = ("/", "repo").
Proof. reflexivity. Qed.

Example candidate_dir_sample : candidate_dir __file__ = "/repo".
Proof. reflexivity. Qed.

Example lines_mixed :
  Py.file_lines
    (String "a" (String Py.CR (String Py.LF (String "b" (String Py.LF "c")))))
  = [line "a"; line "b"; "c"].
Proof. reflexivity. Qed.

Example rstrip_trailing : Py.rstrip "conda  " = "conda".
Proof. reflexivity. Qed.

Example ledger_text_sorted_sample :
  ledger_text {[ "git"; "conda"; "rdkit" ]}
  = line "conda" +:+ line "git" +:+ line "rdkit".
Proof. vm_compute. reflexivity. Qed.

(** A fresh machine with neither tool: [git] records itself, probes, hands
    over to [conda], and installs. *)
Example git_on_bare_machine :
  let st := snd (git quiet (fresh, on empty_home ∅ absent)) in
  log (fst st) = Some {[ "git"; "conda" ]} /\
  calls (snd st)
  = [Which "git"; Which "conda"; RunCommand "pip install -y conda";
     RunCommand "conda install -y -q git"] /\
  fs (machine (snd st)) !! LOG = Some (File true (line "conda" +:+ line "git")).
Proof. vm_compute. repeat split; reflexivity. Qed.

(** ** Gate and steps *)

(** C1 at the fresh object on a machine that has conda: the step records
    the task, probes, and returns. *)
Lemma C1_witness :
  let w := on empty_home {[ "conda" := "/usr/bin/conda" ]} absent in
  let f := <[ LOG := File true (line "conda") ]> empty_home in
  conda quiet (fresh, w)
  = (Ok tt, (with_log fresh (Some (record None "conda")),
             add_call (with_machine w (with_fs (machine w) f)) (Which "conda"))).
Proof.
  intros w f.
  refine (proj1 (proj2 (proj2 (proj2
    (C1_probe_short_circuit EOS CONFIG_JSON __file__ quiet offline
       "conda" fresh w f _ _ _)))) eq_refl _).
  - reflexivity.
  - reflexivity.
  - vm_compute. reflexivity.
  - exists "/usr/bin/conda". reflexivity.
Defined.

(** C2 at the fresh object on a machine without conda. *)
Lemma C2_witness :
  let w := on empty_home ∅ absent in
  let st1 := snd (conda quiet (fresh, w)) in
  conda quiet st1 = (Ok tt, st1).
Proof.
  intros w.
  refine (proj1 (proj1 (proj2
    (C2_second_invocation_is_silent EOS CONFIG_JSON __file__ quiet offline
       fresh w _)))).
  reflexivity.
Defined.

(** C9 at an object whose ledger holds conda, on a machine without it. *)
Lemma C9_witness :
  let ins := with_log fresh (Some {[ "conda" ]}) in
  let w := on empty_home ∅ absent in
  path_tools (machine w) !! "conda" = None /\
  conda quiet (ins, w) = (Ok tt, (ins, w)).
Proof.
  intros ins w. split; [reflexivity|].
  refine (proj1 (proj2
    (C9_recorded_task_is_skipped EOS CONFIG_JSON __file__ quiet offline
       "conda" ins w {[ "conda" ]} _ _ _)) eq_refl).
  - reflexivity.
  - reflexivity.
  - apply elem_of_singleton. reflexivity.
Defined.

(** ** Development path and configuration file *)

(** C3: with the readme and the conduct policy missing beside setup.py,
    [_package_path] still sets the development path to the directory. *)
Theorem C3_missing_markers_keep_the_path :
  let w := on checkout ∅ absent in
  Fs.exists_ checkout "/repo/setup.py" = true /\
  Fs.exists_ checkout "/repo/README.md" = false /\
  Fs.exists_ checkout "/repo/CODE_OF_CONDUCT.md" = false /\
  _package_path __file__ (undetected, w)
  = (Ok tt,
     (with_development_path undetected (Some "/repo"),
      add_call (add_call (add_call w (Exists_ "/repo/setup.py"))
                  (Exists_ "/repo/README.md"))
        (Exists_ "/repo/CODE_OF_CONDUCT.md"))).
Proof. repeat split; reflexivity. Qed.

(** C7: from the same state (destination absent, development path set,
    file present in the tree) [_config] leaves a link at the destination
    and the step [config] leaves a regular file holding a copy; neither
    asks the remote host. *)
Theorem C7_config_step_copies_where__config_links :
  let w := on checkout ∅ absent in
  let dst := OsPath.join EOS CONFIG_JSON in
  let linked :=
    snd (_config EOS CONFIG_JSON GITHUB_ORG GITHUB_ERSILIA_REPO __file__
           offline (fresh, w)) in
  let copied := snd (config EOS CONFIG_JSON __file__ offline (fresh, w)) in
  checkout !! dst = None /\
  fs (machine (snd linked)) !! dst = Some (Symlink "/repo/config.json") /\
  fs (machine (snd copied)) !! dst = Some (File true "{}") /\
  forallb (fun e => negb (is_download e)) (calls (snd linked)) = true /\
  forallb (fun e => negb (is_download e)) (calls (snd copied)) = true.
Proof. vm_compute. repeat split; reflexivity. Qed.

(** C10 at the object whose development path is not detected yet, on a
    machine whose checkout holds no configuration file: the copy raises. *)
Lemma C10_witness :
  let w := on empty_home ∅ absent in
  fst (config EOS CONFIG_JSON __file__ offline (undetected, w))
  = Raise FileNotFoundError.
Proof.
  intros w.
  refine (proj2 (proj2 (proj2 (proj2 (proj2
    (C10_config_never_downloads EOS CONFIG_JSON __file__ offline undetected w))
    (with_log undetected (Some (record None "config")))
    (with_machine w (with_fs (machine w)
       (<[ LOG := File true (line "config") ]> empty_home)))
    (<[ LOG := File true (line "config") ]> empty_home) _ _ _)))
    "/repo/config.json" _).
  - vm_compute. reflexivity.
  - reflexivity.
  - vm_compute. reflexivity.
  - reflexivity.
Defined.

(** ** Ledger file *)

(** C4 (amended) at the ledger of the first three steps, read back by a
    fresh object. *)
Lemma C4_witness :
  let s : gset string := {[ "conda"; "git"; "rdkit" ]} in
  let w := on empty_home ∅ absent in
  let st1 := snd (write_log (with_log fresh (Some s), w)) in
  log (fst (snd (read_log (fresh, snd st1)))) = Some s.
Proof.
  intros s w st1.
  assert (forall t, t ∈ s -> newline_free t = true /\ Py.rstrip t = t) as Hs.
  { intros t Ht. subst s. apply elem_of_union in Ht as [Ht|Ht];
      [apply elem_of_union in Ht as [Ht|Ht]|];
      apply elem_of_singleton in Ht; subst t; split; reflexivity. }
  assert (write_log (with_log fresh (Some s), w) = (Ok tt, st1)) as Hw
    by (vm_compute; reflexivity).
  exact (f_equal (fun r => log (fst (snd r)))
           (C4_ledger_round_trip (with_log fresh (Some s)) fresh w s st1
              eq_refl Hs Hw eq_refl)).
Defined.

(** C4 as stated fails: a name that ends in a blank is non-empty and has
    no newline, yet comes back without the blank; a name with a carriage
    return inside comes back as two names. *)
Lemma C4_counterexample :
  let w := on empty_home ∅ absent in
  let back (s : gset string) :=
    log (fst (snd (read_log
      (fresh, snd (snd (write_log (with_log fresh (Some s), w))))))) in
  ("conda " <> EmptyString /\ newline_free "conda " = true /\
   fst (write_log (with_log fresh (Some {[ "conda " ]}), w)) = Ok tt /\
   back {[ "conda " ]} = Some {[ "conda" ]} /\
   back {[ "conda " ]} <> Some {[ "conda " ]}) /\
  (let ab := String "a" (String Py.CR "b") in
   back {[ ab ]} = Some {[ "a"; "b" ]} /\
   back {[ ab ]} <> Some {[ ab ]}).
Proof.
  intros w back.
  assert (back {[ "conda " ]} = Some {[ "conda" ]}) as H1
    by (vm_compute; reflexivity).
  assert (back {[ String "a" (String Py.CR "b") ]} = Some {[ "a"; "b" ]}) as H2
    by (vm_compute; reflexivity).
  split; [|split].
  - split; [discriminate|]. split; [reflexivity|]. split; [reflexivity|].
    split; [exact H1|]. rewrite H1. intros H.
    apply (f_equal (from_option (fun s => bool_decide ("conda" ∈ s)) false)) in H.
    vm_compute in H. discriminate H.
  - exact H2.
  - rewrite H2. intros H.
    apply (f_equal (from_option (fun s => bool_decide ("a" ∈ s)) false)) in H.
    vm_compute in H. discriminate H.
Qed.

(** C5 (amended) at a ledger file that is a directory. *)
Lemma C5_witness :
  let w := on {[ EOS := Dir; LOG := Dir ]} ∅ absent in
  read_log (fresh, w)
  = (Raise IsADirectoryError, (fresh, add_call w (Exists_ LOG))).
Proof.
  intros w.
  refine (proj1 (proj2 (C5_read_log_propagates_io_errors fresh w))
            IsADirectoryError _ _).
  - reflexivity.
  - reflexivity.
Defined.

(** C5 as stated fails: a ledger file that exists and that this process
    may not open makes [read_log] raise; the ledger is not set to empty. *)
Lemma C5_counterexample :
  let f : gmap string node := {[ EOS := Dir; LOG := File false (line "conda") ]} in
  let w := on f ∅ absent in
  Fs.exists_ f LOG = true /\
  Fs.read f LOG = Raise PermissionError /\
  read_log (fresh, w)
  = (Raise PermissionError, (fresh, add_call w (Exists_ LOG))) /\
  fst (read_log (fresh, w)) <> Ok tt.
Proof. repeat split; try reflexivity. discriminate. Qed.

(** ** Order of the steps *)

(** C6 (amended) at a machine that has neither tool, tracking disabled. *)
Lemma C6_witness :
  let w := on empty_home ∅ absent in
  calls (snd (snd (git quiet (untracked, w))))
  = [Which "git"; Which "conda"; RunCommand "pip install -y conda";
     RunCommand "conda install -y -q git"].
Proof.
  intros w.
  rewrite (proj1 (proj2
    (C6_git_invokes_conda_after_its_probe quiet untracked w untracked w eq_refl)
    eq_refl)).
  reflexivity.
Defined.

(** C6 as stated fails: on a machine that has git, [git] passes its ledger
    gate and returns after its probe; the [conda] step has left no mark:
    its task is not in the ledger and its tool was not probed. *)
Lemma C6_counterexample :
  let w := on empty_home {[ "git" := "/usr/bin/git" ]} absent in
  let st' := snd (git quiet (fresh, w)) in
  fst (_is_done "git" (fresh, w)) = Ok false /\
  fst (git quiet (fresh, w)) = Ok tt /\
  log (fst st') = Some {[ "git" ]} /\
  calls (snd st') = [Which "git"] /\
  ~ conda_mark (fresh, w) st'.
Proof.
  intros w st'.
  assert (calls (snd st') = [Which "git"]) as Hc by reflexivity.
  repeat split; try (vm_compute; reflexivity).
  intros [Hm|Hm].
  - vm_compute in Hm. discriminate Hm.
  - unfold new_calls in Hm. rewrite Hc in Hm. cbn in Hm.
    apply list_elem_of_singleton in Hm. discriminate Hm.
Qed.

(** ** Import probe *)

(** C8 at a machine where the import of the toolkit fails for another
    reason than the module missing. *)
Lemma C8_witness :
  let w := on empty_home ∅ (ImportRaises ImportError) in
  rdkit quiet (untracked, w)
  = (Raise ImportError, (untracked, add_call w (Import "rdkit"))).
Proof.
  intros w.
  exact (C8_only_module_not_found_is_absent quiet untracked w untracked w eq_refl).
Defined.

(** * The further properties at concrete inputs *)

Import Scenario.

(** X1 at the fresh object: a second object loads what the first
    recorded. *)
Lemma X1_witness :
  let w := on empty_home ∅ absent in
  let st1 := snd (_is_done "conda" (fresh, w)) in
  recorded "conda" (fst (snd (read_log (fresh, snd st1)))) = true.
Proof.
  intros w.
  refine (proj1 (proj2
    (X1_recorded_task_survives_restart "conda" fresh fresh w
       (<[ LOG := File true (line "conda") ]> empty_home) _ _ _ _ _ _ _))).
  - reflexivity.
  - reflexivity.
  - vm_compute. reflexivity.
  - reflexivity.
  - reflexivity.
  - reflexivity.
  - reflexivity.
Defined.

(** X2 at an object with tracking disabled whose ledger holds conda. *)
Lemma X2_witness :
  let ins := with_log untracked (Some {[ "conda" ]}) in
  let w := on empty_home ∅ absent in
  calls (snd (snd (conda quiet (ins, w))))
  = [Which "conda"; RunCommand "pip install -y conda"].
Proof.
  intros ins w.
  rewrite (proj1 (proj2
    (X2_tracking_disabled_always_probes quiet "conda" ins w eq_refl))).
  reflexivity.
Defined.

(** X3 at the step [git] on the fresh object. *)
Lemma X3_witness :
  let w := on empty_home ∅ absent in
  recorded "git" (fst (snd (git quiet (fresh, w)))) = true.
Proof.
  intros w.
  refine (proj1 (proj2 (proj2 (proj2
    (X3_steps_only_grow_the_ledger EOS CONFIG_JSON __file__ quiet offline
       IMAGE_WORKDIR base_conda_name python_version bentoml_version
       server_docker_name copytree clone mkdtemp conda_exists conda_is_base
       conda_prefix docker_exists docker_build
       "git" (git quiet) fresh w _)))) eq_refl).
  right. left. reflexivity.
Defined.

(** X4 at a ledger of two names. *)
Lemma X4_witness :
  let ins := with_log fresh (Some {[ "git"; "conda" ]}) in
  let w := on empty_home ∅ absent in
  exists xs,
    Fs.read (fs (machine (snd (snd (write_log (ins, w)))))) LOG
    = Ok (Py.write_lines xs) /\
    StronglySorted String.le xs /\
    NoDup xs /\
    (forall t, t ∈ xs <-> t ∈ ({[ "git"; "conda" ]} : gset string)).
Proof.
  intros ins w.
  refine (X4_ledger_file_is_sorted ins w {[ "git"; "conda" ]}
            (snd (write_log (ins, w))) _ _).
  - reflexivity.
  - vm_compute. reflexivity.
Defined.

(** X5 at an object that holds conda, with its ledger file on disk. *)
Lemma X5_witness :
  let ins := with_log fresh (Some {[ "conda" ]}) in
  let w := on {[ EOS := Dir; LOG := File true (line "conda") ]} ∅ absent in
  fst (remove_log (ins, w)) = Ok tt /\
  fs (machine (snd (snd (remove_log (ins, w))))) !! LOG = None.
Proof.
  intros ins w.
  rewrite (proj1 (X5_remove_log_clears_only_the_file ins w true (line "conda")
                    eq_refl)).
  split; reflexivity.
Defined.

(** X6 at a ledger path that is a directory. *)
Lemma X6_witness :
  let w := on {[ EOS := Dir; LOG := Dir ]} ∅ absent in
  remove_log (fresh, w)
  = (Raise IsADirectoryError, (fresh, add_call w (Exists_ LOG))).
Proof.
  intros w.
  exact (proj1 (proj2 (X6_remove_log_edges fresh w)) eq_refl).
Defined.

(** X7 at a destination linked to a checkout that is gone. *)
Lemma X7_witness :
  let w := on (<[ "/home/user/eos/config.json" := Symlink "/old/config.json" ]>
                 checkout) ∅ absent in
  fst (_config EOS CONFIG_JSON GITHUB_ORG GITHUB_ERSILIA_REPO __file__ offline
         (fresh, w))
  = Raise FileExistsError.
Proof.
  intros w.
  refine (proj1
    (X7__config_raises_on_a_dangling_link EOS CONFIG_JSON GITHUB_ORG
       GITHUB_ERSILIA_REPO __file__ offline fresh w "/old/config.json" _ _ _)).
  - reflexivity.
  - reflexivity.
  - reflexivity.
Defined.

(** X8 at a ledger file edited by hand. *)
Lemma X8_witness :
  let w := on {[ EOS := Dir; LOG := File true (line "conda  " +:+ "git") ]}
              ∅ absent in
  recorded "conda  " (fst (snd (read_log (fresh, w)))) = false /\
  recorded "conda" (fst (snd (read_log (fresh, w)))) = true.
Proof.
  intros w.
  destruct (X8_loaded_names_are_stripped fresh w (line "conda  " +:+ "git")
              eq_refl) as (s & _ & _ & Hnever).
  split.
  - apply Hnever. discriminate.
  - vm_compute. reflexivity.
Defined.

(** X9 on a machine with a checkout and none of the tools. *)
Lemma X9_witness :
  let r := check_dependencies EOS CONFIG_JSON GITHUB_ORG GITHUB_ERSILIA_REPO
             __file__ quiet offline CREDENTIALS_JSON IMAGE_WORKDIR
             base_conda_name python_version bentoml_version server_docker_name
             fetch to_credentials copytree clone mkdtemp conda_exists
             conda_is_base conda_prefix docker_exists docker_build
             ersilia_base (undetected, on checkout ∅ absent) in
  fst r = Ok tt /\
  recorded "server_docker" (fst (snd r)) = true.
Proof.
  pose proof
    (X9_check_dependencies_installs_conda_once EOS CONFIG_JSON GITHUB_ORG
       GITHUB_ERSILIA_REPO __file__ quiet offline CREDENTIALS_JSON
       IMAGE_WORKDIR base_conda_name python_version bentoml_version
       server_docker_name fetch to_credentials copytree clone mkdtemp
       conda_exists conda_is_base conda_prefix docker_exists docker_build
       ersilia_base (undetected, on checkout ∅ absent)) as H.
  cbv zeta in H |- *. destruct H as [_ H].
  match type of H with
  | fst ?x = _ -> _ => set (r := x) in *
  end.
  assert (fst r = Ok tt) as Hok by (vm_compute; reflexivity).
  split; [exact Hok|].
  apply (proj2 (H Hok)). do 5 right. left. reflexivity.
Defined.

(** X11 on the checkout. *)
Lemma X11_witness :
  let w := on checkout ∅ absent in
  let st1 := snd (_config EOS CONFIG_JSON GITHUB_ORG GITHUB_ERSILIA_REPO
                    __file__ offline (fresh, w)) in
  fs (machine (snd (snd (config EOS CONFIG_JSON __file__ offline st1))))
    !! "/home/user/eos/config.json"
  = Some (Symlink "/repo/config.json").
Proof.
  intros w st1.
  destruct (X11_config_after__config_keeps_the_link EOS CONFIG_JSON GITHUB_ORG
              GITHUB_ERSILIA_REPO __file__ offline fresh w true "{}"
              (<[ LOG := File true (line "config") ]>
                 (<[ "/home/user/eos/config.json" := Symlink "/repo/config.json" ]>
                    checkout)))
    as (_ & _ & Hcfg & Hlink).
  - reflexivity.
  - reflexivity.
  - reflexivity.
  - reflexivity.
  - vm_compute. reflexivity.
  - fold st1 in Hcfg. rewrite Hcfg. exact Hlink.
Defined.

(** X12 on a machine without credentials: they are written in the tree and
    linked. *)
Lemma X12_witness :
  let w := on empty_home ∅ absent in
  let st := snd (_credentials EOS __file__ CREDENTIALS_JSON fetch to_credentials
                   (fresh, w)) in
  fs (machine (snd st)) !! "/home/user/eos/credentials.json"
  = Some (Symlink "/repo/credentials.json") /\
  fs (machine (snd st)) !! "/repo/credentials.json" = Some (File true "{}").
Proof.
  intros w st. subst st.
  rewrite (proj2 (X12__credentials_go_through_the_tree EOS __file__
                    CREDENTIALS_JSON fetch to_credentials fresh w eq_refl)
             eq_refl).
  split; vm_compute; reflexivity.
Defined.

(** X14 at an image that exists. *)
Lemma X14_witness :
  let w := on empty_home ∅ absent in
  server_docker __file__ IMAGE_WORKDIR bentoml_version server_docker_name
    copytree clone mkdtemp docker_found docker_build (untracked, w)
  = (Ok tt, (untracked, w)).
Proof.
  intros w.
  exact (proj2
    (X14_environment_and_image_probes __file__ quiet IMAGE_WORKDIR
       base_conda_name python_version bentoml_version server_docker_name
       copytree clone mkdtemp conda_exists conda_is_base conda_prefix
       docker_found docker_build untracked w untracked w (machine w))
    eq_refl eq_refl).
Defined.

(** X15 at the sample version and working directory. *)
Lemma X15_witness :
  dockerfile_text bentoml_version IMAGE_WORKDIR
  = Py.write_lines
      ["FROM bentoml/model-server:0.11.0"; "MAINTAINER ersilia"; EmptyString;
       "ENV LC_ALL=C.UTF-8"; "ENV LANG=C.UTF-8"; EmptyString;
       "WORKDIR /bento"; EmptyString; "COPY . ."; EmptyString;
       "RUN conda --version"; EmptyString;
       "RUN conda install -c conda-forge rdkit"; "RUN pip install ."].
Proof.
  exact (proj1 (X15_generated_manifest bentoml_version IMAGE_WORKDIR
                  eq_refl eq_refl)).
Defined.

(** X16 on the machine an earlier run has set up. *)
Lemma X16_witness :
  let w := on bootstrapped ∅ absent in
  let st := snd (__init__ EOS CONFIG_JSON GITHUB_ORG GITHUB_ERSILIA_REPO __file__
                   offline CREDENTIALS_JSON fetch to_credentials ersilia_base
                   true (undetected, w)) in
  log (fst st) = Some {[ "conda"; "git"; "rdkit" ]} /\
  development_path (fst st) = None.
Proof.
  intros w st. subst st.
  rewrite (X16_construction_on_a_bootstrapped_machine EOS CONFIG_JSON GITHUB_ORG
             GITHUB_ERSILIA_REPO __file__ offline CREDENTIALS_JSON fetch
             to_credentials ersilia_base true undetected w
             ("ersilia-os", "ersilia") (machine w) eq_refl eq_refl eq_refl).
  split; vm_compute; reflexivity.
Defined.

(** X17 on the same machine, the toolkit missing. *)
Lemma X17_witness :
  let st := (undetected, on bootstrapped ∅ absent) in
  let st1 := snd (__init__ EOS CONFIG_JSON GITHUB_ORG GITHUB_ERSILIA_REPO __file__
                    offline CREDENTIALS_JSON fetch to_credentials ersilia_base
                    false st) in
  base_installer EOS CONFIG_JSON GITHUB_ORG GITHUB_ERSILIA_REPO __file__ quiet
    offline CREDENTIALS_JSON fetch to_credentials ersilia_base st
  = rdkit quiet st1.
Proof.
  intros st st1.
  refine (proj1
    (X17_base_installer_always_probes EOS CONFIG_JSON GITHUB_ORG
       GITHUB_ERSILIA_REPO __file__ quiet offline CREDENTIALS_JSON fetch
       to_credentials ersilia_base st st1 _)).
  vm_compute. reflexivity.
Defined.

(** * [check_types] *)

Lemma count_loop_counts dtypes md c n :
  Tracking.count_loop dtypes md c = inr n ->
  c <= n <= c + length dtypes /\
  (forall expected rest,
     Tracking.Output_Type md = Some (expected :: rest) ->
     n = c + length (filter (fun i => Tracking.typeDict i <> Some expected) dtypes)).
Proof.
  revert c. induction dtypes as [|i dtypes IH]; intros c; cbn [Tracking.count_loop].
  - intros [= <-]. cbn. split; [lia|]. intros. now rewrite Nat.add_0_r.
  - destruct (Tracking.typeDict i) as [ty|] eqn:Hty; [|discriminate].
    destruct (Tracking.Output_Type md) as [[|expected rest]|] eqn:Hot;
      try discriminate.
    intros H. apply IH in H as [Hb Hc]. cbn [length]. split.
    + destruct (String.eqb ty expected); cbn [negb] in Hb; lia.
    + intros e r [= <- <-]. rewrite (Hc expected rest eq_refl).
      destruct (String.eqb_spec ty expected) as [He|He]; cbn [negb].
      * subst ty.
        rewrite filter_cons_False by (intros H; now apply H). reflexivity.
      * rewrite filter_cons_True by congruence. cbn [length]. lia.
Qed.

(** X18: when [check_types] answers, the number of mismatched types it
    reports is the number of examined columns whose type name differs from
    the first entry of "Output Type"; it is at most the number of examined
    columns, and it is the number printed last. *)
Theorem X18_check_types_counts_mismatches df md msgs rep :
  Tracking.check_types df md = inr (msgs, rep) ->
  Tracking.mismatched_types rep <= length (Tracking.dtypesLst df) /\
  (forall expected rest,
     Tracking.Output_Type md = Some (expected :: rest) ->
     Tracking.mismatched_types rep
     = length (filter (fun i => Tracking.typeDict i <> Some expected)
                 (Tracking.dtypesLst df))) /\
  last msgs = Some (Tracking.Mismatched (Tracking.mismatched_types rep)).
Proof.
  unfold Tracking.check_types. cbv zeta.
  destruct (Tracking.count_loop _ _ _) as [e|n] eqn:Hloop; [discriminate|].
  apply count_loop_counts in Hloop as [Hb Hc].
  intros H.
  assert (Tracking.mismatched_types rep = n /\
          last msgs = Some (Tracking.Mismatched n)) as [-> ->].
  { destruct (1 <? _)%nat; [|destruct (_ =? 1)%nat];
      try destruct (Tracking.Output_Shape md) as [s|]; try discriminate;
      try destruct (negb _); injection H as <- <-; now split. }
  split; [lia|]. split; [|reflexivity].
  intros expected rest Hot. now rewrite (Hc expected rest Hot).
Qed.


(** X20: the columns named key and input play no part in [check_types];
    when it answers, the shape is found correct exactly when more than one
    examined column comes with "Output Shape" List and a single one with
    Single; with no examined column the shape is found correct and nothing
    is looked up in the metadata. *)
Theorem X20_check_types_shape df md :
  Tracking.check_types df md
  = Tracking.check_types
      (filter (fun c => Tracking.name c <> "key" /\ Tracking.name c <> "input") df)
      md /\
  (forall msgs rep,
     Tracking.check_types df md = inr (msgs, rep) ->
     let n := length (Tracking.dtypesLst df) in
     Tracking.correct_shape rep = true <->
     (1 < n -> Tracking.Output_Shape md = Some "List") /\
     (n = 1 -> Tracking.Output_Shape md = Some "Single")) /\
  (Tracking.dtypesLst df = [] ->
   Tracking.check_types df md
   = inr ([Tracking.CorrectShape; Tracking.Mismatched 0],
          {| Tracking.mismatched_types := 0; Tracking.correct_shape := true |})).
Proof.
  split; [|split].
  - assert (Tracking.dtypesLst
              (filter (fun c => Tracking.name c <> "key" /\
                                Tracking.name c <> "input") df)
            = Tracking.dtypesLst df) as Hsame.
    { unfold Tracking.dtypesLst. f_equal. rewrite list_filter_filter.
      apply list_filter_iff. intros c.
      destruct (String.eqb_spec (Tracking.name c) "key") as [Hk|Hk];
        destruct (String.eqb_spec (Tracking.name c) "input") as [Hi|Hi];
        cbn; split; try tauto; try (intros [? ?]; discriminate);
        try discriminate. }
    unfold Tracking.check_types. now rewrite Hsame.
  - intros msgs rep. unfold Tracking.check_types. cbv zeta.
    destruct (Tracking.count_loop _ _ _) as [e|c]; [discriminate|].
    destruct (1 <? length (Tracking.dtypesLst df))%nat eqn:H1.
    + apply Nat.ltb_lt in H1.
      destruct (Tracking.Output_Shape md) as [s|]; [|discriminate].
      destruct (String.eqb_spec s "List") as [Hs|Hs]; cbn [negb];
        intros [= <- <-]; cbn.
      * subst s. split; [|reflexivity].
        intros _. split; [reflexivity|lia].
      * split; [discriminate|].
        intros [H _]. specialize (H H1). congruence.
    + apply Nat.ltb_ge in H1.
      destruct (length (Tracking.dtypesLst df) =? 1)%nat eqn:H2.
      * apply Nat.eqb_eq in H2.
        destruct (Tracking.Output_Shape md) as [s|]; [|discriminate].
        destruct (String.eqb_spec s "Single") as [Hs|Hs]; cbn [negb];
          intros [= <- <-]; cbn.
        -- subst s. split; [|reflexivity].
           intros _. split; [lia|reflexivity].
        -- split; [discriminate|].
           intros [_ H]. specialize (H H2). congruence.
      * apply Nat.eqb_neq in H2. intros [= <- <-]. cbn.
        split; [|reflexivity]. intros _. split; lia.
  - intros Hempty. unfold Tracking.check_types. now rewrite Hempty.
Qed.

(** X18 at a frame of two examined columns, one of them of integers. *)
Lemma X18_witness :
  Tracking.check_types Scenario.frame Scenario.floats
  = inr ([Tracking.CorrectShape; Tracking.Mismatched 1],
         {| Tracking.mismatched_types := 1; Tracking.correct_shape := true |}) /\
  1 <= length (Tracking.dtypesLst Scenario.frame).
Proof.
  assert (Tracking.check_types Scenario.frame Scenario.floats
          = inr ([Tracking.CorrectShape; Tracking.Mismatched 1],
                 {| Tracking.mismatched_types := 1;
                    Tracking.correct_shape := true |})) as H by reflexivity.
  split; [exact H|].
  exact (proj1 (X18_check_types_counts_mismatches _ _ _ _ H)).
Defined.


(** X20 at the sample frame, which has two examined columns. *)
Lemma X20_witness :
  Tracking.Output_Shape Scenario.floats = Some "List".
Proof.
  refine (proj1 (proj1 (proj1 (proj2 (X20_check_types_shape Scenario.frame
                                         Scenario.floats))
                                _ _ eq_refl) eq_refl) _).
  vm_compute. lia.
Defined.
